(** * install.py: a shallow embedding of the WASI SDK installer

    The script resolves a version token into a [(version, tag)] pair, builds
    the download URL, fetches and unpacks the archive with its first path
    component stripped, and appends variable assignments to up to two files.

    Python [str] values are modelled as [string] (byte strings); exceptions
    as values of [exn] carried by [result]; the file system, the process
    environment and the module globals as finite maps that are threaded
    through the stateful functions. *)

From Stdlib Require Import Ascii.
From Stdlib Require String.
From stdpp Require Import base option list gmap strings.

Local Open Scope string_scope.

(** ** Exceptions and results *)

Inductive exn : Type :=
  | SystemExit (code : nat)
  | NameError (name : string)
  | AssertionError (msg : string)
  | KeyError (key : string)
  | URLError (url : string)
  | ReadError
  | FileExistsError (path : string)
  | FileNotFoundError (path : string)
  | IsADirectoryError (path : string)
  | NotADirectoryError (path : string).

Inductive result (A : Type) : Type :=
  | Ok (a : A)
  | Raise (e : exn).
Arguments Ok {A} a.
Arguments Raise {A} e.

(** Sequencing: an exception ends the computation. *)
Global Instance result_bind : MBind result := λ A B k r,
  match r with
  | Ok a => k a
  | Raise e => Raise e
  end.

(** ** The [str] methods the script uses *)

Module Str.

(** [c in chars], for a one-character [c]. *)
Fixpoint mem (c : ascii) (chars : string) : bool :=
  match chars with
  | "" => false
  | String d chars' => if decide (c = d) then true else mem c chars'
  end.

(** [s.rstrip(chars)]: drops every trailing character that belongs to the
    set [chars]. *)
Fixpoint rstrip (chars s : string) : string :=
  match s with
  | "" => ""
  | String c s' =>
      match rstrip chars s' with
      | "" => if mem c chars then "" else String c ""
      | r => String c r
      end
  end.

(** [s.startswith(p)]. *)
Fixpoint startswith (p s : string) : bool :=
  match p, s with
  | "", _ => true
  | String a p', String b s' => if decide (a = b) then startswith p' s' else false
  | String _ _, "" => false
  end.

(** [sub in s]. *)
Fixpoint contains (sub s : string) : bool :=
  startswith sub s ||
  match s with
  | "" => false
  | String _ s' => contains sub s'
  end.

(** [s.replace(old, new)] for a non-empty [old]: the occurrences are taken
    from the left and do not overlap.  [skip] counts the characters of an
    occurrence that are still to be dropped. *)
Fixpoint replace_from (old new : string) (skip : nat) (s : string) : string :=
  match s with
  | "" => ""
  | String c s' =>
      match skip with
      | S k => replace_from old new k s'
      | O =>
          if startswith old s
          then new +:+ replace_from old new (String.length old - 1) s'
          else String c (replace_from old new 0 s')
      end
  end.

(** With an empty [old], Python puts [new] before every character and at
    the end. *)
Fixpoint intersperse (new s : string) : string :=
  match s with
  | "" => new
  | String c s' => new +:+ String c (intersperse new s')
  end.

Definition replace (old new s : string) : string :=
  match old with
  | "" => intersperse new s
  | _ => replace_from old new 0 s
  end.

(** [c.lower()] on a byte: the ASCII capitals move to their small letters,
    every other byte stays.  On a string of ASCII characters this is
    [str.lower()]; Python also lowers letters outside ASCII, which are left
    as they are here, so a statement about the value of [lower] is made for
    ASCII strings only. *)
Definition lower_ascii (c : ascii) : ascii :=
  let n := nat_of_ascii c in
  if (65 <=? n)%nat && (n <=? 90)%nat then ascii_of_nat (n + 32) else c.

(** [s.lower()]. *)
Fixpoint lower (s : string) : string :=
  match s with
  | "" => ""
  | String c s' => String (lower_ascii c) (lower s')
  end.

(** Every character of [s] is an ASCII character: [s.isascii()]. *)
Fixpoint isascii (s : string) : bool :=
  match s with
  | "" => true
  | String c s' => (nat_of_ascii c <? 128)%nat && isascii s'
  end.

(** [s.split(sep)] for a one-character separator: never an empty list. *)
Fixpoint split (sep : ascii) (s : string) : list string :=
  match s with
  | "" => [""]
  | String c s' =>
      if decide (c = sep) then "" :: split sep s'
      else match split sep s' with
           | [] => [String c ""]
           | w :: ws => String c w :: ws
           end
  end.

(** [sep.join(parts)]. *)
Fixpoint join (sep : string) (parts : list string) : string :=
  match parts with
  | [] => ""
  | [w] => w
  | w :: ws => w +:+ sep +:+ join sep ws
  end.

(** Truthiness of a [str]: only the empty string is false. *)
Definition truthy (s : string) : bool :=
  match s with
  | "" => false
  | _ => true
  end.

End Str.

(** ** The network and the process environment *)

(** A request as [urllib] sends it: the URL and the headers added to it. *)
Record request : Type := {
  req_url : string;
  req_headers : list (string * string)
}.

(** The network as this process reaches it, that is through the proxies its
    environment names ([urllib] reads the [*_proxy] variables): what the
    GitHub API answers to a request, already decoded from JSON into a
    dictionary of strings, and the bytes a download of a URL yields.  A
    failed exchange is the exception it raises.  A download that fails may
    fail before the target file is opened ([received] is [None]) or after a
    part of the bytes was written to it ([received] is that part). *)
Record Network : Type := {
  urlopen_json : request → result (gmap string string);
  urlretrieve : string → result string;
  received : string → option string
}.

(** [os.getenv(key, default)] over [os.environ]. *)
Definition getenv {A : Type} (environ : gmap string string)
    (key : string) (inj : string → A) (default : A) : A :=
  match environ !! key with
  | Some v => inj v
  | None => default
  end.

(** ** Version Resolver *)

Definition retrieve_latest_tag (net : Network) (environ : gmap string string)
    : result string :=
  let url := "https://api.github.com/repos/WebAssembly/wasi-sdk/releases/latest" in
  let headers :=
    match environ !! "GITHUB_TOKEN" with
    | Some token => [("Authorization", "token " +:+ token)]
    | None => []
    end in
  data ← urlopen_json net {| req_url := url; req_headers := headers |};
  match data !! "tag_name" with
  | Some tag => Ok tag
  | None => Raise (KeyError "tag_name")
  end.

Definition calculate_version_and_tag (net : Network)
    (environ : gmap string string) (version : string)
    : result (string * string) :=
  '(version, tag) ←
    (if decide (version = "latest")
     then
       tag ← retrieve_latest_tag net environ;
       Ok (Str.replace "wasi-sdk-" "" tag, tag)
     else
       let stripped := Str.rstrip ".0" version in
       Ok (version, "wasi-sdk-" +:+ stripped));
  let version :=
    if negb (Str.contains "." version) then version +:+ ".0" else version in
  Ok (version, tag).

(** ** URL Builder *)

Definition calculate_artifact_url (version tag arch os : string) : string :=
  let base := "https://github.com/WebAssembly/wasi-sdk/releases/download" in
  let os := if decide (os = "Darwin") then "macos" else Str.lower os in
  base +:+ "/" +:+ tag +:+ "/wasi-sdk-" +:+ version +:+ "-" +:+ arch
       +:+ "-" +:+ os +:+ ".tar.gz".

(** ** The file system *)

(** A path names a regular file with its content, or a directory.  Paths are
    compared as strings: no normalisation and no links. *)
Inductive node : Type :=
  | File (content : string)
  | Dir.

Abbreviation FS := (gmap string node).

Definition isfile (fs : FS) (path : string) : bool :=
  match fs !! path with
  | Some (File _) => true
  | _ => false
  end.

Definition isdir (fs : FS) (path : string) : bool :=
  match fs !! path with
  | Some Dir => true
  | _ => false
  end.

(** Stateful code: a function of the file system that returns an outcome and
    the file system it leaves, also when it raises. *)
Definition IO (A : Type) : Type := FS → result A * FS.

Global Instance IO_ret : MRet IO := λ A a fs, (Ok a, fs).
Global Instance IO_bind : MBind IO := λ A B k m fs,
  match m fs with
  | (Ok a, fs') => k a fs'
  | (Raise e, fs') => (Raise e, fs')
  end.

Definition raise {A : Type} (e : exn) : IO A := λ fs, (Raise e, fs).

(** A pure computation that may raise, run inside [IO]. *)
Definition lift {A : Type} (r : result A) : IO A := λ fs, (r, fs).

(** The directories on the way to [path], outermost first, [path] included:
    ["a/b/c"] gives ["a"; "a/b"; "a/b/c"]. *)
Fixpoint path_prefixes (p : string) (rest : list string) : list string :=
  match rest with
  | [] => [p]
  | w :: ws => p :: path_prefixes (p +:+ "/" +:+ w) ws
  end.

Definition ancestors (path : string) : list string :=
  match Str.split "/" path with
  | [] => []
  | w :: ws => filter (λ p, p ≠ "") (path_prefixes w ws)
  end.

(** [os.mkdir] along a list of paths, outermost first, tolerating
    directories that exist.  A regular file at the last path is in the way
    of the directory itself ([FileExistsError]); a regular file at an
    earlier path makes the next one impossible ([NotADirectoryError]). *)
Fixpoint mkdirs (paths : list string) : IO unit := λ fs,
  match paths with
  | [] => (Ok (), fs)
  | p :: ps =>
      match fs !! p with
      | Some (File _) =>
          match ps with
          | [] => (Raise (FileExistsError p), fs)
          | q :: _ => (Raise (NotADirectoryError q), fs)
          end
      | _ => mkdirs ps (<[p := Dir]> fs)
      end
  end.

(** [os.makedirs(path, exist_ok=True)]: the empty path cannot be made. *)
Definition makedirs (path : string) : IO unit :=
  match path with
  | "" => raise (FileNotFoundError "")
  | _ => mkdirs (ancestors path)
  end.

(** [os.unlink(path)]. *)
Definition unlink (path : string) : IO unit := λ fs,
  match fs !! path with
  | Some (File _) => (Ok (), delete path fs)
  | Some Dir => (Raise (IsADirectoryError path), fs)
  | None => (Raise (FileNotFoundError path), fs)
  end.

(** [tempfile.NamedTemporaryFile(delete=False)]: the system picks the name
    [tmp] and creates the file empty. *)
Definition NamedTemporaryFile (tmp : string) : IO string := λ fs,
  (Ok tmp, <[tmp := File ""]> fs).

(** Reading a whole file. *)
Definition read_file (path : string) : IO string := λ fs,
  match fs !! path with
  | Some (File c) => (Ok c, fs)
  | Some Dir => (Raise (IsADirectoryError path), fs)
  | None => (Raise (FileNotFoundError path), fs)
  end.

(** [request.urlretrieve(url, filename)]: the bytes the network yields for
    [url] become the content of [filename].  When the download fails after
    the file was opened, the file holds the part that was received. *)
Definition download (net : Network) (url filename : string) : IO unit := λ fs,
  match urlretrieve net url with
  | Ok bytes => (Ok (), <[filename := File bytes]> fs)
  | Raise e =>
      match received net url with
      | Some part => (Raise e, <[filename := File part]> fs)
      | None => (Raise e, fs)
      end
  end.

(** Every character of [s] belongs to the set [chars]. *)
Fixpoint all_in (chars s : string) : bool :=
  match s with
  | "" => true
  | String c s' => Str.mem c chars && all_in chars s'
  end.

(** [os.path.basename(path)]: the text behind the last ['/']. *)
Definition basename (path : string) : string :=
  List.last (Str.split "/" path) "".

(** [os.path.dirname(path)]: the text up to the last ['/'], without the
    slashes at its end unless it consists of slashes only; empty when the
    path has no ['/']. *)
Definition dirname (path : string) : string :=
  match Str.split "/" path with
  | [] | [_] => ""
  | parts =>
      let head := Str.join "/" (removelast parts) +:+ "/" in
      if all_in "/" head then head else Str.rstrip "/" head
  end.

(** [open(path, 'a')]: the content the file has when it is opened, or the
    exception.  An existing regular file is opened; a directory is not; a
    missing file is created, empty, when its last segment can name a file
    and the directory it lies in exists (the current directory, for a path
    without ['/'], and the root directory always do). *)
Definition open_append (path : string) (fs : FS) : result string :=
  match fs !! path with
  | Some (File old) => Ok old
  | Some Dir => Raise (IsADirectoryError path)
  | None =>
      let last := basename path in
      if decide (path = "") then Raise (FileNotFoundError path)
      else if decide (last = "") then Raise (IsADirectoryError path)
      else
        let parent :=
          if all_in "/" (dirname path) then Some Dir
          else fs !! dirname path in
        match parent with
        | Some Dir =>
            if decide (last = "." ∨ last = "..")
            then Raise (IsADirectoryError path)
            else Ok ""
        | Some (File _) => Raise (NotADirectoryError path)
        | None => Raise (FileNotFoundError path)
        end
  end.

(** [with open(path, 'a') as f: body]: when the file can be opened, the
    text [body] wrote before it returned or raised is put after the old
    content, and the outcome of [body] is the outcome of the block. *)
Definition with_open_append (path : string) (body : result unit * string)
    : IO unit := λ fs,
  match open_append path fs with
  | Ok old => (body.1, <[path := File (old +:+ body.2)]> fs)
  | Raise e => (Raise e, fs)
  end.

(** A sequence of [f.write(line)] calls.  The argument of each call is
    evaluated just before the call, so a line that raises stops the
    sequence with the text of the earlier calls written. *)
Fixpoint write_lines (lines : list (result string)) : result unit * string :=
  match lines with
  | [] => (Ok (), "")
  | Raise e :: _ => (Raise e, "")
  | Ok l :: rest => let '(r, text) := write_lines rest in (r, l +:+ text)
  end.

(** ** The tarfile library *)

(** An archive member: its name, whether it is a directory, and the bytes
    of a regular file. *)
Record TarInfo : Type := {
  name : string;
  isdirectory : bool;
  data : string
}.

Definition set_name (m : TarInfo) (n : string) : TarInfo :=
  {| name := n; isdirectory := isdirectory m; data := data m |}.

(** What the script uses of [tarfile]: [tarfile.open(path, 'r:gz')] followed
    by [getmembers()], as a function of the bytes of the file, and
    [tar.extract(member, path=dest, filter='tar')]. *)
Record Tarfile : Type := {
  getmembers : string → result (list TarInfo);
  extract : string → TarInfo → IO unit
}.

(** ** Fetcher/Extractor *)

(** The body of the [for member in tar.getmembers()] loop. *)
Definition extract_member (tarfile : Tarfile) (install_dir : string)
    (member : TarInfo) : IO unit :=
  let parts := Str.split "/" (name member) in
  if decide (1 < length parts)
  then
    let member := set_name member (Str.join "/" (drop 1 parts)) in
    extract tarfile install_dir member
  else mret ().

Fixpoint extract_members (tarfile : Tarfile) (install_dir : string)
    (members : list TarInfo) : IO unit :=
  match members with
  | [] => mret ()
  | member :: rest =>
      _ ← extract_member tarfile install_dir member;
      extract_members tarfile install_dir rest
  end.

Definition install (tarfile : Tarfile) (net : Network) (tmp : string)
    (url install_dir : string) : IO unit :=
  file ← NamedTemporaryFile tmp;
  _ ← download net url file;
  _ ← makedirs install_dir;
  bytes ← read_file file;
  members ← lift (getmembers tarfile bytes);
  _ ← extract_members tarfile install_dir members;
  unlink file.

(** ** Output Writer *)

(** The line feed. *)
Definition LF : string := String "010"%char "".

(** Module globals that hold a [str]: reading a name that is not bound
    raises [NameError]. *)
Definition read_global (globals : gmap string string) (x : string)
    : result string :=
  match globals !! x with
  | Some v => Ok v
  | None => Raise (NameError x)
  end.

(** [assert cond, msg]. *)
Definition assert (cond : bool) (msg : string) : IO unit :=
  if cond then mret () else raise (AssertionError msg).

(** [if path: body] for an [Optional[str]]: [None] and the empty string are
    false. *)
Definition when_given (path : option string) (body : string → IO unit)
    : IO unit :=
  match path with
  | Some p => if Str.truthy p then body p else mret ()
  | None => mret ()
  end.

(** [version] is not a parameter and not a local of [write_variables]: the
    name is looked up among the module globals at each use. *)
Definition write_variables (globals : gmap string string)
    (install_dir : string) (output_file env_file : option string) : IO unit :=
  let clang_path := install_dir +:+ "/bin/clang" in
  _ ← (λ fs, assert (isfile fs clang_path)
               ("clang not found at " +:+ clang_path) fs);
  let sysroot_path := install_dir +:+ "/share/wasi-sysroot" in
  _ ← (λ fs, assert (isdir fs sysroot_path)
               ("sysroot not found at " +:+ sysroot_path) fs);
  _ ← when_given output_file (λ output_file,
        with_open_append output_file (write_lines [
          Ok ("wasi-sdk-path=" +:+ install_dir +:+ LF);
          version ← read_global globals "version";
            Ok ("wasi-sdk-version=" +:+ version +:+ LF);
          Ok ("clang-path=" +:+ clang_path +:+ LF);
          Ok ("sysroot-path=" +:+ sysroot_path +:+ LF) ]));
  when_given env_file (λ env_file,
    with_open_append env_file (write_lines [
      Ok ("WASI_SDK_PATH=" +:+ install_dir +:+ LF);
      version ← read_global globals "version";
        Ok ("WASI_SDK_VERSION=" +:+ version +:+ LF);
      Ok ("CC=" +:+ clang_path +:+ " --sysroot=" +:+ sysroot_path +:+ LF);
      Ok ("CXX=" +:+ clang_path +:+ "++ --sysroot=" +:+ sysroot_path +:+ LF) ])).

(** ** The pipeline *)

(** The host: [platform.machine()], [platform.system()], the environment,
    the network, the tarfile library and the name the next temporary file
    gets. *)
Record Host : Type := {
  machine : string;
  system : string;
  environ : gmap string string;
  network : Network;
  tarfile : Tarfile;
  tmpname : string
}.

Definition main (host : Host) (globals : gmap string string)
    (version install_dir : string) (output_file env_file : option string)
    : IO unit :=
  '(version, tag) ← lift (calculate_version_and_tag (network host)
                            (environ host) version);
  let url := calculate_artifact_url version tag (machine host) (system host) in
  _ ← install (tarfile host) (network host) (tmpname host) url install_dir;
  write_variables globals install_dir output_file env_file.

(** ** Startup *)

(** The namespace [parser.parse_args()] returns. *)
Record Args : Type := {
  args_version : string;
  args_install_dir : string;
  args_output_file : option string;
  args_env_file : option string;
  args_verbose : nat;
  args_test_only : bool
}.

(** The defaults of the flags. *)
Definition default_args : Args := {|
  args_version := "latest";
  args_install_dir := ".";
  args_output_file := None;
  args_env_file := None;
  args_verbose := 0;
  args_test_only := false
|}.

(** The values the [__main__] block computes from the environment and the
    flags before it runs anything. *)
Record Config : Type := {
  version : string;
  install_dir : string;
  add_to_path : bool;
  output_file : option string;
  env_file : option string
}.

Definition configure (environ : gmap string string) (args : Args) : Config :=
  let version := getenv environ "INPUT_VERSION" id (args_version args) in
  let install_dir :=
    getenv environ "INPUT_INSTALL_DIR" id (args_install_dir args) in
  let add_to_path :=
    bool_decide
      (Str.lower (getenv environ "INPUT_ADD_TO_PATH" id "false") = "true") in
  let output_file :=
    if add_to_path
    then getenv environ "GITHUB_PATH" Some (args_output_file args)
    else args_output_file args in
  let env_file :=
    if add_to_path
    then getenv environ "GITHUB_ENV" Some (args_env_file args)
    else args_env_file args in
  {| version := version; install_dir := install_dir;
     add_to_path := add_to_path; output_file := output_file;
     env_file := env_file |}.

(** The [__main__] block.  Its assignments are at module level, so they bind
    module globals; [globals] holds the [str]-valued ones.  [doctest_failures]
    is the count [doctest.testmod()] reports. *)
Definition script (host : Host) (doctest_failures : nat) (args : Args)
    : IO unit :=
  let cfg := configure (environ host) args in
  let globals : gmap string string :=
    <["install_dir" := install_dir cfg]> (<["version" := version cfg]> ∅) in
  if args_test_only args
  then if decide (doctest_failures = 0) then mret () else raise (SystemExit 1)
  else main host globals (version cfg) (install_dir cfg)
         (output_file cfg) (env_file cfg).

(** ** A stand-in for the host, to run the script on concrete inputs *)

Module Sample.

(** Extraction of one member below [dest]: the missing parent directories
    are made, a directory member becomes a directory, and a regular member
    becomes a file with the member's bytes. *)
Definition extract_to (dest : string) (m : TarInfo) : IO unit :=
  let target := dest +:+ "/" +:+ name m in
  _ ← mkdirs (removelast (ancestors target));
  if isdirectory m then mkdirs [target]
  else λ fs,
    match fs !! target with
    | Some Dir => (Raise (IsADirectoryError target), fs)
    | _ => (Ok (), <[target := File (data m)]> fs)
    end.

Definition file (n d : string) : TarInfo :=
  {| name := n; isdirectory := false; data := d |}.

Definition directory (n : string) : TarInfo :=
  {| name := n; isdirectory := true; data := "" |}.

(** Three archives, named by their bytes. *)
Definition archive_two_files : list TarInfo :=
  [file "root/a/b.txt" "B"; file "root/c.txt" "C"].

Definition archive_top_level_only : list TarInfo :=
  [directory "root"].

Definition archive_sdk : list TarInfo :=
  [directory "wasi-sdk"; directory "wasi-sdk/bin";
   file "wasi-sdk/bin/clang" "ELF"; directory "wasi-sdk/share";
   directory "wasi-sdk/share/wasi-sysroot"].

(** The third member collides with the directory the first one made. *)
Definition archive_colliding : list TarInfo :=
  [file "root/a/b.txt" "B"; file "root/c.txt" "C"; file "root/a" "A";
   file "root/d.txt" "D"].

Definition lib : Tarfile := {|
  getmembers bytes :=
    if decide (bytes = "two-files") then Ok archive_two_files
    else if decide (bytes = "top-level-only") then Ok archive_top_level_only
    else if decide (bytes = "sdk") then Ok archive_sdk
    else if decide (bytes = "colliding") then Ok archive_colliding
    else Raise ReadError;
  extract := extract_to
|}.

(** A network that serves [bytes] for every download and announces
    [tag] as the latest release. *)
Definition serving (bytes tag : string) : Network := {|
  urlopen_json _ := Ok (<["tag_name" := tag]> ∅);
  urlretrieve _ := Ok bytes;
  received _ := None
|}.

(** An install directory with the two expected paths, and two files that
    already have content. *)
Definition installed : FS :=
  {[ "sdk/bin/clang" := File "ELF"; "sdk/share/wasi-sysroot" := Dir;
     "out" := File "old"; "env" := File "OLD=1" ]}.

(** The globals after the script bound [version] to ["25"]. *)
Definition globals25 : gmap string string := {[ "version" := "25" ]}.

(** The flags [--version 25 --install-dir sdk --output-file out]. *)
Definition args25 : Args := {|
  args_version := "25";
  args_install_dir := "sdk";
  args_output_file := Some "out";
  args_env_file := None;
  args_verbose := 0;
  args_test_only := false
|}.

Definition host (bytes : string) (env : gmap string string) : Host := {|
  machine := "x86_64";
  system := "Linux";
  environ := env;
  network := serving bytes "wasi-sdk-25";
  tarfile := lib;
  tmpname := "/tmp/tmpq1w2e3"
|}.

End Sample.

(** ** The specification's vocabulary *)

(** The path behind the first ['/'] of [s]: [None] when [s] has a single
    segment. *)
Fixpoint after_first_slash (s : string) : option string :=
  match s with
  | "" => None
  | String c s' => if decide (c = "/"%char) then Some s' else after_first_slash s'
  end.

(** A member with its first path segment removed, when it has more than one
    segment. *)
Definition strip_components (m : TarInfo) : option TarInfo :=
  set_name m <$> after_first_slash (name m).

(** Running [f] on the elements of a list in order, up to the first one that
    raises. *)
Fixpoint for_each {A : Type} (f : A → IO unit) (l : list A) : IO unit :=
  match l with
  | [] => mret ()
  | x :: l' => _ ← f x; for_each f l'
  end.

(** The content of the file at [p]; a file that does not exist yet has
    none. *)
Definition content (fs : FS) (p : string) : string :=
  match fs !! p with
  | Some (File c) => c
  | _ => ""
  end.

(** [path] names the file [p]: it is given, and not the empty string. *)
Definition given (path : option string) (p : string) : bool :=
  bool_decide (path = Some p) && Str.truthy p.

(** The four lines for the output file and the four lines for the
    environment file. *)
Definition output_text (dir version : string) : string :=
  "wasi-sdk-path=" +:+ dir +:+ LF
  +:+ "wasi-sdk-version=" +:+ version +:+ LF
  +:+ "clang-path=" +:+ dir +:+ "/bin/clang" +:+ LF
  +:+ "sysroot-path=" +:+ dir +:+ "/share/wasi-sysroot" +:+ LF.

Definition env_text (dir version : string) : string :=
  "WASI_SDK_PATH=" +:+ dir +:+ LF
  +:+ "WASI_SDK_VERSION=" +:+ version +:+ LF
  +:+ "CC=" +:+ dir +:+ "/bin/clang --sysroot="
      +:+ dir +:+ "/share/wasi-sysroot" +:+ LF
  +:+ "CXX=" +:+ dir +:+ "/bin/clang++ --sysroot="
      +:+ dir +:+ "/share/wasi-sysroot" +:+ LF.

(** What a successful run of the writer puts at the end of the file [p]. *)
Definition appended (dir version : string) (output_file env_file : option string)
    (p : string) : string :=
  (if given output_file p then output_text dir version else "")
  +:+ (if given env_file p then env_text dir version else "").

(** [s] is one of the sixteen spellings of [true], whatever the case of its
    letters. *)
Definition spells_true (s : string) : Prop :=
  ∃ c1 c2 c3 c4 : ascii,
    s = String c1 (String c2 (String c3 (String c4 "")))
    ∧ (c1 = "t" ∨ c1 = "T")%char ∧ (c2 = "r" ∨ c2 = "R")%char
    ∧ (c3 = "u" ∨ c3 = "U")%char ∧ (c4 = "e" ∨ c4 = "E")%char.

(** The last character of [s]. *)
Fixpoint last_char (s : string) : option ascii :=
  match s with
  | "" => None
  | String c "" => Some c
  | String _ s' => last_char s'
  end.

(** [open(p, 'a')] succeeds. *)
Definition can_append (fs : FS) (p : string) : bool :=
  match open_append p fs with
  | Ok _ => true
  | Raise _ => false
  end.

(** A computation keeps the kind of every path: what was a regular file is
    still one afterwards, what was a directory is still one, whether the
    computation returns or raises. *)
Definition keeps_kinds {A : Type} (m : IO A) : Prop :=
  ∀ fs r fs' q, m fs = (r, fs') →
    (isfile fs q = true → isfile fs' q = true)
    ∧ (isdir fs q = true → isdir fs' q = true).

(** The flags with [--version] replaced. *)
Definition with_version (args : Args) (v : string) : Args := {|
  args_version := v;
  args_install_dir := args_install_dir args;
  args_output_file := args_output_file args;
  args_env_file := args_env_file args;
  args_verbose := args_verbose args;
  args_test_only := args_test_only args
|}.

(** * Properties *)

(** ** Strings *)

Lemma append_cons (c : ascii) (s t : string) :
  String c s +:+ t = String c (s +:+ t).
Proof. reflexivity. Qed.

Lemma append_nil_l (s : string) : "" +:+ s = s.
Proof. reflexivity. Qed.

Lemma append_nil_r (s : string) : s +:+ "" = s.
Proof. induction s as [|c s IH]; [done|]. by rewrite append_cons, IH. Qed.

Lemma append_assoc (s t u : string) : (s +:+ t) +:+ u = s +:+ t +:+ u.
Proof. induction s as [|c s IH]; [done|]. by rewrite !append_cons, IH. Qed.

Lemma startswith_append (p s : string) : Str.startswith p (p +:+ s) = true.
Proof.
  induction p as [|c p IH]; [done|].
  rewrite append_cons. simpl. by rewrite decide_True.
Qed.

Lemma startswith_refl (s : string) : Str.startswith s s = true.
Proof. induction s as [|c s IH]; [done|]. simpl. by rewrite decide_True. Qed.

Lemma contains_append_r (sub s : string) : Str.contains sub (s +:+ sub) = true.
Proof.
  induction s as [|c s IH].
  - rewrite append_nil_l. destruct sub; [done|].
    unfold Str.contains; fold Str.contains. by rewrite startswith_refl.
  - rewrite append_cons. simpl. rewrite IH. apply orb_true_r.
Qed.

(** ** Version Resolver *)

(** The version the resolver returns always has a decimal point. *)
Lemma resolver_version_has_dot net env v v' t :
  calculate_version_and_tag net env v = Ok (v', t) →
  Str.contains "." v' = true.
Proof.
  unfold calculate_version_and_tag. intros H.
  assert (∀ w, Str.contains "."
     (if negb (Str.contains "." w) then w +:+ ".0" else w) = true) as Hdot.
  { intros w. destruct (Str.contains "." w) eqn:E; simpl; [done|].
    clear. induction w as [|c w IH]; [done|].
    rewrite append_cons. simpl. rewrite IH. apply orb_true_r. }
  case_decide.
  - destruct (retrieve_latest_tag net env); simpl in H; [|done].
    injection H as <- <-. apply Hdot.
  - simpl in H. injection H as <- <-. apply Hdot.
Qed.

(** For an explicit version the tag is the prefix followed by the input with
    every trailing ['.'] and ['0'] dropped. *)
Lemma resolver_explicit_tag net env v :
  v ≠ "latest" →
  ∃ v', calculate_version_and_tag net env v
        = Ok (v', "wasi-sdk-" +:+ Str.rstrip ".0" v).
Proof.
  intros Hv. unfold calculate_version_and_tag.
  rewrite decide_False by done. simpl. eauto.
Qed.

(** C1 (the code departs from the claim): on the input ["20.0"] the tag is
    ["wasi-sdk-2"], where removing exactly the suffix [".0"] would give
    ["wasi-sdk-20"]: [rstrip('.0')] drops every trailing ['.'] and ['0']. *)
Theorem resolver_tag_of_20_0 net env :
  calculate_version_and_tag net env "20.0" = Ok ("20.0", "wasi-sdk-2").
Proof. reflexivity. Qed.

(** C2 (the code departs from the claim): on the input ["20"] the version is
    ["20.0"] and the tag is ["wasi-sdk-2"], which is neither ["wasi-sdk-"]
    followed by the version nor by the version without its [".0"]. *)
Theorem resolver_invariant_at_20 net env :
  calculate_version_and_tag net env "20" = Ok ("20.0", "wasi-sdk-2")
  ∧ "wasi-sdk-2" ≠ "wasi-sdk-" +:+ "20.0"
  ∧ "wasi-sdk-2" ≠ "wasi-sdk-" +:+ "20".
Proof. repeat split; done. Qed.

(** C3: the three fixed test vectors of the Version Resolver. *)
Theorem resolver_test_vectors net env :
  calculate_version_and_tag net env "25" = Ok ("25.0", "wasi-sdk-25")
  ∧ calculate_version_and_tag net env "25.0" = Ok ("25.0", "wasi-sdk-25")
  ∧ calculate_version_and_tag net env "25.1" = Ok ("25.1", "wasi-sdk-25.1").
Proof. repeat split. Qed.

(** ** URL Builder *)

Example lower_boundaries :
  Str.lower "@AZ[`az{ Darwin-09_" = "@az[`az{ darwin-09_".
Proof. reflexivity. Qed.

Lemma lower_ascii_idempotent (c : ascii) :
  Str.lower_ascii (Str.lower_ascii c) = Str.lower_ascii c.
Proof. by destruct c as [[] [] [] [] [] [] [] []]. Qed.

Lemma lower_idempotent (s : string) : Str.lower (Str.lower s) = Str.lower s.
Proof.
  induction s as [|c s IH]; [done|].
  simpl. by rewrite lower_ascii_idempotent, IH.
Qed.

Lemma lower_length (s : string) :
  String.length (Str.lower s) = String.length s.
Proof. induction s as [|c s IH]; [done|]. simpl. by rewrite IH. Qed.

(** C4: the URL is the fixed template filled with the tag, the version, the
    architecture and the platform name, where ["Darwin"] becomes ["macos"]
    and every other platform name is lowercased (stated for names of ASCII
    characters, where [Str.lower] is [str.lower()]); the two fixed vectors
    hold. *)
Theorem url_builder_template (version tag arch os : string) :
  calculate_artifact_url version tag arch "Darwin"
  = "https://github.com/WebAssembly/wasi-sdk/releases/download/" +:+ tag
      +:+ "/wasi-sdk-" +:+ version +:+ "-" +:+ arch +:+ "-macos.tar.gz"
  ∧ (os ≠ "Darwin" → Str.isascii os = true →
     calculate_artifact_url version tag arch os
     = "https://github.com/WebAssembly/wasi-sdk/releases/download/" +:+ tag
         +:+ "/wasi-sdk-" +:+ version +:+ "-" +:+ arch +:+ "-"
         +:+ Str.lower os +:+ ".tar.gz")
  ∧ calculate_artifact_url "25.0" "wasi-sdk-25" "x86_64" "Linux"
    = "https://github.com/WebAssembly/wasi-sdk/releases/download/wasi-sdk-25/wasi-sdk-25.0-x86_64-linux.tar.gz"
  ∧ calculate_artifact_url "25.1" "wasi-sdk-25.1" "arm64" "Darwin"
    = "https://github.com/WebAssembly/wasi-sdk/releases/download/wasi-sdk-25.1/wasi-sdk-25.1-arm64-macos.tar.gz".
Proof.
  unfold calculate_artifact_url. split; [|split; [|split]].
  - reflexivity.
  - intros Hos _. rewrite decide_False by done. reflexivity.
  - reflexivity.
  - reflexivity.
Qed.

Lemma url_builder_template_witness :
  calculate_artifact_url "25.0" "wasi-sdk-25" "x86_64" "Windows"
  = "https://github.com/WebAssembly/wasi-sdk/releases/download/wasi-sdk-25/wasi-sdk-25.0-x86_64-windows.tar.gz".
Proof.
  exact (proj1 (proj2 (url_builder_template "25.0" "wasi-sdk-25" "x86_64"
                         "Windows")) ltac:(done) eq_refl).
Defined.

(** ** Fetcher/Extractor *)

Lemma split_nonempty (sep : ascii) (s : string) : Str.split sep s ≠ [].
Proof.
  destruct s as [|c s]; simpl; [done|].
  case_decide; [done|]. by destruct (Str.split sep s).
Qed.

Lemma join_split (s : string) : Str.join "/" (Str.split "/" s) = s.
Proof.
  induction s as [|c s IH]; [done|].
  simpl. pose proof (split_nonempty "/" s) as Hne.
  destruct (Str.split "/" s) as [|w ws]; [done|].
  case_decide as Hc.
  - subst c. change (Str.join "/" ("" :: w :: ws))
      with ("" +:+ "/" +:+ Str.join "/" (w :: ws)).
    by rewrite IH.
  - destruct ws as [|w' ws]; simpl in *; [by subst|].
    by rewrite append_cons, IH.
Qed.

(** A name without ['/'] is a single segment. *)
Lemma split_single (s : string) :
  after_first_slash s = None → Str.split "/" s = [s].
Proof.
  induction s as [|c s IH]; [done|].
  simpl. case_decide; [done|]. intros Hs%IH. by rewrite Hs.
Qed.

(** A name with a ['/'] splits into its first segment and the segments of
    what follows the first ['/']. *)
Lemma split_first (s r : string) :
  after_first_slash s = Some r →
  ∃ seg, Str.split "/" s = seg :: Str.split "/" r
         ∧ after_first_slash seg = None
         ∧ s = seg +:+ "/" +:+ r.
Proof.
  revert r. induction s as [|c s IH]; [done|].
  intros r. simpl. case_decide as Hc.
  - intros [= ->]. subst c. by exists "".
  - intros (seg & Hs & Hseg & ->)%IH. rewrite Hs.
    exists (String c seg). split; [done|]. split; [|done].
    simpl. by rewrite decide_False.
Qed.

Lemma after_first_slash_contains (s : string) :
  after_first_slash s = None ↔ Str.contains "/" s = false.
Proof.
  induction s as [|c s IH]; [done|].
  simpl. destruct (decide (c = "/"%char)) as [->|Hc].
  - by rewrite decide_True.
  - rewrite decide_False by congruence. by destruct s.
Qed.

(** One turn of the loop: a member with more than one segment is handed to
    [extract] under its name behind the first ['/']; any other member is
    passed over and leaves the file system as it is. *)
Lemma extract_member_strip (lib : Tarfile) (dir : string) (m : TarInfo)
    (fs : FS) :
  extract_member lib dir m fs
  = match strip_components m with
    | Some m' => extract lib dir m' fs
    | None => (Ok (), fs)
    end.
Proof.
  unfold extract_member, strip_components.
  destruct (after_first_slash (name m)) as [r|] eqn:Hr; simpl.
  - destruct (split_first _ _ Hr) as (seg & -> & _ & _).
    pose proof (split_nonempty "/" r) as Hne.
    rewrite decide_True.
    + change (drop 1 (seg :: Str.split "/" r)) with (Str.split "/" r).
      by rewrite join_split.
    + simpl. destruct (Str.split "/" r); [done|]. simpl. lia.
  - rewrite (split_single _ Hr). by rewrite decide_False by (simpl; lia).
Qed.

Lemma io_bind_run {A B : Type} (m : IO A) (k : A → IO B) (fs : FS) :
  (m ≫= k) fs
  = match m fs with
    | (Ok a, fs') => k a fs'
    | (Raise e, fs') => (Raise e, fs')
    end.
Proof. reflexivity. Qed.

Lemma extract_members_for_each (lib : Tarfile) (dir : string)
    (members : list TarInfo) (fs : FS) :
  extract_members lib dir members fs
  = for_each (extract lib dir) (omap strip_components members) fs.
Proof.
  revert fs. induction members as [|m members IH]; intros fs; [done|].
  cbn [extract_members omap list_omap]. rewrite io_bind_run, extract_member_strip.
  destruct (strip_components m) as [m'|]; [|apply IH].
  cbn [for_each]. rewrite io_bind_run.
  destruct (extract lib dir m' fs) as [[[]|e] fs']; [apply IH|done].
Qed.

Lemma omap_strip_filter (members : list TarInfo) :
  omap strip_components
    (filter (λ m, Str.contains "/" (name m) = true) members)
  = omap strip_components members.
Proof.
  induction members as [|m members IH]; [done|].
  rewrite filter_cons. case_decide as Hm; cbn [omap list_omap].
  - by rewrite IH.
  - unfold strip_components at 2.
    apply not_true_is_false, after_first_slash_contains in Hm.
    by rewrite Hm.
Qed.

(** An archive whose members all have a single segment leaves the file
    system as it was. *)
Lemma extract_members_top_level_only (lib : Tarfile) (dir : string)
    (members : list TarInfo) (fs : FS) :
  Forall (λ m, Str.contains "/" (name m) = false) members →
  extract_members lib dir members fs = (Ok (), fs).
Proof.
  intros Hall. rewrite extract_members_for_each.
  induction Hall as [|m members Hm _ IH]; [done|].
  cbn [omap list_omap]. unfold strip_components at 1.
  apply after_first_slash_contains in Hm. by rewrite Hm.
Qed.

(** C5: the extraction loop hands to [extract], in order and under the
    install directory, exactly the members whose name has more than one
    segment, each under its name with the first segment removed; members
    with a single segment are skipped.  The archive with [root/a/b.txt] and
    [root/c.txt] unpacked into [D] leaves [D/a/b.txt] and [D/c.txt] and
    nothing below [D/root]; an archive with only a top-level entry leaves
    nothing below [D]. *)
Theorem extractor_strips_first_component (lib : Tarfile) (dir : string)
    (members : list TarInfo) (m : TarInfo) (fs : FS) :
  extract_members lib dir members fs
  = for_each (extract lib dir) (omap strip_components members) fs
  ∧ extract_members lib dir members fs
    = extract_members lib dir
        (filter (λ m, Str.contains "/" (name m) = true) members) fs
  ∧ match strip_components m with
    | Some m' =>
        ∃ seg, Str.contains "/" seg = false
               ∧ name m = seg +:+ "/" +:+ name m'
               ∧ data m' = data m ∧ isdirectory m' = isdirectory m
    | None => Str.contains "/" (name m) = false
    end
  ∧ install Sample.lib (Sample.serving "two-files" "") "/tmp/tmpq1w2e3"
      "https://example.org/sdk.tar.gz" "D" ∅
    = (Ok (), {[ "D" := Dir; "D/a" := Dir;
                 "D/a/b.txt" := File "B"; "D/c.txt" := File "C" ]})
  ∧ install Sample.lib (Sample.serving "top-level-only" "") "/tmp/tmpq1w2e3"
      "https://example.org/sdk.tar.gz" "D" ∅
    = (Ok (), {[ "D" := Dir ]}).
Proof.
  split; [apply extract_members_for_each|].
  split; [by rewrite !extract_members_for_each, omap_strip_filter|].
  split; [|split; vm_compute; reflexivity].
  unfold strip_components.
  destruct (after_first_slash (name m)) as [r|] eqn:Hr; simpl.
  - destruct (split_first _ _ Hr) as (seg & _ & Hseg & Hname).
    exists seg. by rewrite <- after_first_slash_contains.
  - by apply after_first_slash_contains.
Qed.

(** ** Output Writer *)

(** The two assertions come first: the rest of the writer runs only when
    both hold. *)
Lemma write_variables_run (globals : gmap string string) (dir : string)
    (o e : option string) :
  ∃ k : IO unit, ∀ fs,
    write_variables globals dir o e fs
    = if isfile fs (dir +:+ "/bin/clang")
      then if isdir fs (dir +:+ "/share/wasi-sysroot")
           then k fs
           else (Raise (AssertionError
                          ("sysroot not found at " +:+ dir
                           +:+ "/share/wasi-sysroot")), fs)
      else (Raise (AssertionError
                     ("clang not found at " +:+ dir +:+ "/bin/clang")), fs).
Proof.
  eexists. intros fs. unfold write_variables.
  rewrite io_bind_run. unfold assert at 1.
  destruct (isfile fs (dir +:+ "/bin/clang")); [|done].
  cbn [mret IO_ret]. rewrite io_bind_run. unfold assert at 1.
  destruct (isdir fs (dir +:+ "/share/wasi-sysroot")); [|done].
  cbn [mret IO_ret]. reflexivity.
Qed.

(** C6: without the file [bin/clang] under the install directory the writer
    stops with an assertion failure and writes nothing, whether or not
    [share/wasi-sysroot] is there; with [bin/clang] but without the
    directory [share/wasi-sysroot] it stops the same way; so whenever it
    changed a file, both paths were there. *)
Theorem writer_requires_installed_paths (globals : gmap string string)
    (dir : string) (o e : option string) (fs : FS) :
  (isfile fs (dir +:+ "/bin/clang") = false →
   write_variables globals dir o e fs
   = (Raise (AssertionError ("clang not found at " +:+ dir +:+ "/bin/clang")),
      fs))
  ∧ (isfile fs (dir +:+ "/bin/clang") = true →
     isdir fs (dir +:+ "/share/wasi-sysroot") = false →
     write_variables globals dir o e fs
     = (Raise (AssertionError
                 ("sysroot not found at " +:+ dir +:+ "/share/wasi-sysroot")),
        fs))
  ∧ ((write_variables globals dir o e fs).2 ≠ fs →
     isfile fs (dir +:+ "/bin/clang") = true
     ∧ isdir fs (dir +:+ "/share/wasi-sysroot") = true).
Proof.
  destruct (write_variables_run globals dir o e) as [k Hk]. rewrite !Hk.
  destruct (isfile fs (dir +:+ "/bin/clang")),
    (isdir fs (dir +:+ "/share/wasi-sysroot")); by repeat split.
Qed.

Lemma writer_requires_installed_paths_witness :
  write_variables ∅ "sdk" (Some "out") (Some "env")
    {[ "sdk/share/wasi-sysroot" := Dir ]}
  = (Raise (AssertionError "clang not found at sdk/bin/clang"),
     {[ "sdk/share/wasi-sysroot" := Dir ]}).
Proof.
  exact (proj1 (writer_requires_installed_paths ∅ "sdk" (Some "out")
                  (Some "env") {[ "sdk/share/wasi-sysroot" := Dir ]})
           eq_refl).
Defined.

(** What [open(p, 'a')] finds in the file is its content, the empty text
    for a file it creates. *)
Lemma open_append_content (p : string) (fs : FS) (old : string) :
  open_append p fs = Ok old → old = content fs p.
Proof.
  unfold open_append, content. intros H.
  destruct (fs !! p) as [[s|]|]; [by injection H|done|].
  cbv zeta in H. repeat (case_decide || case_match); by simplify_eq.
Qed.

(** [open(p, 'a')] opens no directory. *)
Lemma open_append_not_dir (p : string) (fs : FS) (old : string) :
  open_append p fs = Ok old → isdir fs p = false.
Proof.
  unfold open_append, isdir. by destruct (fs !! p) as [[s|]|].
Qed.

Lemma with_open_append_ok (p : string) (body : result unit * string)
    (fs fs' : FS) :
  with_open_append p body fs = (Ok (), fs') →
  body.1 = Ok () ∧ fs' = <[p := File (content fs p +:+ body.2)]> fs.
Proof.
  unfold with_open_append.
  destruct (open_append p fs) as [old|x] eqn:Hopen; [|done].
  apply open_append_content in Hopen as ->. by intros [= -> <-].
Qed.

(** A [with] block guarded by its file argument: on success the file named
    by the argument got the text of the block at its end and every other
    path is as before. *)
Lemma when_given_ok (path : option string) (body : result unit * string)
    (fs fs' : FS) (p : string) :
  when_given path (λ q, with_open_append q body) fs = (Ok (), fs') →
  (given path p = true → body.1 = Ok ())
  ∧ fs' !! p = if given path p
               then Some (File (content fs p +:+ body.2))
               else fs !! p.
Proof.
  unfold when_given, given. destruct path as [q|]; simpl.
  - destruct (Str.truthy q) eqn:Hq.
    + intros [Hbody ->]%with_open_append_ok.
      case_bool_decide as Hp; simpl.
      * injection Hp as ->. rewrite Hq. by rewrite lookup_insert_eq.
      * split; [done|]. rewrite lookup_insert_ne; [done|congruence].
    + intros [= <-]. case_bool_decide as Hp; simpl; [|done].
      injection Hp as ->. by rewrite Hq.
  - by intros [= <-].
Qed.

(** The four [write] calls of a block: the second one reads the global
    [version]. *)
Lemma write_lines_block (globals : gmap string string) (l1 l3 l4 : string)
    (f : string → string) :
  write_lines [Ok l1; v ← read_global globals "version"; Ok (f v);
               Ok l3; Ok l4]
  = match globals !! "version" with
    | Some v => (Ok (), l1 +:+ f v +:+ l3 +:+ l4)
    | None => (Raise (NameError "version"), l1)
    end.
Proof.
  unfold read_global. destruct (globals !! "version") as [v|]; simpl.
  - by rewrite append_nil_r.
  - by rewrite append_nil_r.
Qed.

(** A successful run of the writer, path by path. *)
Lemma write_variables_appended (globals : gmap string string) (dir : string)
    (o e : option string) (fs fs' : FS) (p : string) :
  write_variables globals dir o e fs = (Ok (), fs') →
  if given o p || given e p
  then ∃ v, globals !! "version" = Some v
            ∧ fs' !! p = Some (File (content fs p +:+ appended dir v o e p))
  else fs' !! p = fs !! p.
Proof.
  unfold write_variables. rewrite io_bind_run. unfold assert at 1.
  destruct (isfile fs (dir +:+ "/bin/clang")); [|done].
  cbn [mret IO_ret]. rewrite io_bind_run. unfold assert at 1.
  destruct (isdir fs (dir +:+ "/share/wasi-sysroot")); [|done].
  cbn [mret IO_ret]. rewrite io_bind_run, !write_lines_block.
  match goal with
  | |- context [when_given o ?b fs] =>
      destruct (when_given o b fs) as [[[]|?] fs1] eqn:H1; [|done]
  end.
  intros H2.
  apply (when_given_ok _ _ _ _ p) in H1 as [Hv1 H1].
  apply (when_given_ok _ _ _ _ p) in H2 as [Hv2 H2].
  unfold appended, output_text, env_text.
  destruct (globals !! "version") as [v|] eqn:Hv; simpl in *.
  - rewrite H2. unfold content at 1. rewrite H1.
    destruct (given o p), (given e p); simpl.
    + exists v. split; [done|]. do 2 f_equal.
      rewrite !append_assoc. reflexivity.
    + exists v. split; [done|]. do 2 f_equal.
      rewrite !append_assoc, append_nil_r. reflexivity.
    + exists v. split; [done|]. fold (content fs p). do 2 f_equal.
      rewrite !append_assoc. reflexivity.
    + done.
  - destruct (given o p); [by specialize (Hv1 eq_refl)|].
    destruct (given e p); [by specialize (Hv2 eq_refl)|].
    simpl. by rewrite H2, H1.
Qed.

(** C7: after a successful run of the writer the file named by a given
    argument holds what it held before followed by the new lines (the four
    output lines, the four environment lines with the [CC] line that embeds
    the clang path and the [--sysroot] flag, or both when the two arguments
    name the same file); every other path, and so everything when both
    arguments are [None], is as before. *)
Theorem writer_appends (globals : gmap string string) (dir : string)
    (o e : option string) (fs fs' : FS) (p : string) :
  write_variables globals dir o e fs = (Ok (), fs') →
  if given o p || given e p
  then ∃ v, globals !! "version" = Some v
            ∧ fs' !! p = Some (File (content fs p +:+ appended dir v o e p))
  else fs' !! p = fs !! p.
Proof. apply write_variables_appended. Qed.

Lemma writer_appends_witness :
  ∃ v, Sample.globals25 !! "version" = Some v
       ∧ (write_variables Sample.globals25 "sdk" (Some "out") (Some "env")
            Sample.installed).2 !! "env"
         = Some (File ("OLD=1" +:+ env_text "sdk" v)).
Proof.
  assert (write_variables Sample.globals25 "sdk" (Some "out") (Some "env")
            Sample.installed
          = (Ok (), (write_variables Sample.globals25 "sdk" (Some "out")
                       (Some "env") Sample.installed).2)) as Hrun
    by (vm_compute; reflexivity).
  exact (writer_appends _ _ _ _ _ _ "env" Hrun).
Defined.

(** ** Temporary file and failures during extraction *)

(** Making directories never touches a regular file. *)
Lemma mkdirs_lookup_file (ps : list string) (fs fs' : FS) (r : result unit)
    (p c : string) :
  mkdirs ps fs = (r, fs') →
  fs !! p = Some (File c) → fs' !! p = Some (File c).
Proof.
  revert fs. induction ps as [|q ps IH]; intros fs; simpl.
  - by intros [= _ <-].
  - destruct (fs !! q) as [[old|]|] eqn:Hq.
    + destruct ps; by intros [= _ <-].
    + intros Hrun Hp. apply (IH _ Hrun).
      rewrite lookup_insert_ne; [done|congruence].
    + intros Hrun Hp. apply (IH _ Hrun).
      rewrite lookup_insert_ne; [done|congruence].
Qed.

Lemma makedirs_lookup_file (dir : string) (fs fs' : FS) (r : result unit)
    (p c : string) :
  makedirs dir fs = (r, fs') →
  fs !! p = Some (File c) → fs' !! p = Some (File c).
Proof.
  unfold makedirs. destruct dir; [by intros [= _ <-]|].
  apply mkdirs_lookup_file.
Qed.

(** The installer up to the loop, and the two ways it ends: [unlink] runs
    only when the loop returned. *)
Lemma install_run (lib : Tarfile) (net : Network) (tmp url dir bytes : string)
    (members : list TarInfo) (fs fs3 : FS) :
  urlretrieve net url = Ok bytes →
  makedirs dir (<[tmp := File bytes]> (<[tmp := File ""]> fs)) = (Ok (), fs3) →
  getmembers lib bytes = Ok members →
  install lib net tmp url dir fs
  = match extract_members lib dir members fs3 with
    | (Ok _, fs4) => unlink tmp fs4
    | (Raise e, fs4) => (Raise e, fs4)
    end.
Proof.
  intros Hnet Hdirs Hopen. unfold install.
  rewrite io_bind_run. unfold NamedTemporaryFile at 1.
  rewrite io_bind_run. unfold download at 1. rewrite Hnet.
  rewrite io_bind_run, Hdirs.
  rewrite io_bind_run. unfold read_file at 1.
  rewrite (makedirs_lookup_file _ _ _ _ tmp bytes Hdirs)
    by apply lookup_insert_eq.
  rewrite io_bind_run. unfold lift at 1. rewrite Hopen.
  by rewrite io_bind_run.
Qed.

(** A failure in the middle of the loop ends the loop at once, in the state
    the failing member left. *)
Lemma extract_members_failure (lib : Tarfile) (dir : string)
    (pre post : list TarInfo) (m : TarInfo) (e : exn) (fs fs1 fs2 : FS) :
  extract_members lib dir pre fs = (Ok (), fs1) →
  extract_member lib dir m fs1 = (Raise e, fs2) →
  extract_members lib dir (pre ++ m :: post) fs = (Raise e, fs2).
Proof.
  revert fs. induction pre as [|m' pre IH]; intros fs; simpl.
  - intros [= <-] Hm. by rewrite io_bind_run, Hm.
  - rewrite !io_bind_run.
    destruct (extract_member lib dir m' fs) as [[[]|e'] fs'];
      [apply IH|done].
Qed.

(** When [extract] keeps a file in place, so does the whole loop. *)
Lemma extract_members_keeps_file (lib : Tarfile) (dir tmp : string)
    (members : list TarInfo) (r : result unit) (fs fs' : FS) :
  (∀ m fs r fs', extract lib dir m fs = (r, fs') →
                 isfile fs tmp = true → isfile fs' tmp = true) →
  extract_members lib dir members fs = (r, fs') →
  isfile fs tmp = true → isfile fs' tmp = true.
Proof.
  intros Hframe. rewrite extract_members_for_each.
  generalize (omap strip_components members). clear members.
  intros ms. revert fs. induction ms as [|m ms IH]; intros fs; simpl.
  - by intros [= _ <-].
  - rewrite io_bind_run.
    destruct (extract lib dir m fs) as [[[]|e] fs1] eqn:Hm.
    + intros Hrest Htmp. apply (IH _ Hrest). by apply (Hframe _ _ _ _ Hm).
    + intros [= _ <-] Htmp. by apply (Hframe _ _ _ _ Hm).
Qed.

Lemma mkdirs_keeps_file (ps : list string) (fs fs' : FS) (r : result unit)
    (p : string) :
  mkdirs ps fs = (r, fs') → isfile fs p = true → isfile fs' p = true.
Proof.
  intros Hrun. unfold isfile.
  destruct (fs !! p) as [[c|]|] eqn:Hp; [|done..].
  by rewrite (mkdirs_lookup_file _ _ _ _ _ _ Hrun Hp).
Qed.

Lemma makedirs_keeps_file (dir : string) (fs fs' : FS) (r : result unit)
    (p : string) :
  makedirs dir fs = (r, fs') → isfile fs p = true → isfile fs' p = true.
Proof.
  intros Hrun. unfold isfile.
  destruct (fs !! p) as [[c|]|] eqn:Hp; [|done..].
  by rewrite (makedirs_lookup_file _ _ _ _ _ _ Hrun Hp).
Qed.

(** The stand-in for [extract] writes files and makes directories: it never
    removes a regular file. *)
Lemma sample_extract_keeps_file (dest : string) (m : TarInfo) (fs fs' : FS)
    (r : result unit) (p : string) :
  Sample.extract_to dest m fs = (r, fs') →
  isfile fs p = true → isfile fs' p = true.
Proof.
  unfold Sample.extract_to. rewrite io_bind_run.
  destruct (mkdirs _ fs) as [[[]|e] fs1] eqn:Hparents.
  - intros Hrun Hp. pose proof (mkdirs_keeps_file _ _ _ _ p Hparents Hp) as Hp1.
    destruct (isdirectory m).
    + by apply (mkdirs_keeps_file _ _ _ _ p Hrun).
    + destruct (fs1 !! (dest +:+ "/" +:+ name m)) as [[old|]|] eqn:Ht;
        injection Hrun as _ <-; [|done|].
      * unfold isfile in *.
        destruct (decide (dest +:+ "/" +:+ name m = p)) as [->|];
          [by rewrite lookup_insert_eq|by rewrite lookup_insert_ne].
      * unfold isfile in *.
        destruct (decide (dest +:+ "/" +:+ name m = p)) as [->|];
          [by rewrite lookup_insert_eq|by rewrite lookup_insert_ne].
  - intros [= _ <-]. by apply (mkdirs_keeps_file _ _ _ _ p Hparents).
Qed.

(** C8: once the download, the creation of the install directory and the
    opening of the archive went through, the installer removes the temporary
    file when the loop returns; when a member fails in the middle of the
    loop, the installer ends with that exception in the very state the
    failing call left: the members extracted before stay, [unlink] does not
    run, and the temporary file is still there as long as [extract] itself
    does not remove it. *)
Theorem installer_temporary_file (lib : Tarfile) (net : Network)
    (tmp url dir bytes : string) (members : list TarInfo) (fs fs3 : FS) :
  urlretrieve net url = Ok bytes →
  makedirs dir (<[tmp := File bytes]> (<[tmp := File ""]> fs)) = (Ok (), fs3) →
  getmembers lib bytes = Ok members →
  (∀ fs4, extract_members lib dir members fs3 = (Ok (), fs4) →
          isfile fs4 tmp = true →
          install lib net tmp url dir fs = (Ok (), delete tmp fs4))
  ∧ (∀ (pre : list TarInfo) (m : TarInfo) (post : list TarInfo)
       (e : exn) (fs4 fs5 : FS),
       members = (pre ++ m :: post)%list →
       extract_members lib dir pre fs3 = (Ok (), fs4) →
       extract_member lib dir m fs4 = (Raise e, fs5) →
       install lib net tmp url dir fs = (Raise e, fs5)
       ∧ ((∀ m fs r fs', extract lib dir m fs = (r, fs') →
                         isfile fs tmp = true → isfile fs' tmp = true) →
          isfile fs5 tmp = true)).
Proof.
  intros Hnet Hdirs Hopen.
  pose proof (install_run _ _ _ _ _ _ _ _ _ Hnet Hdirs Hopen) as Hrun.
  assert (isfile fs3 tmp = true) as Htmp3.
  { apply (makedirs_keeps_file _ _ _ _ tmp Hdirs).
    unfold isfile. by rewrite lookup_insert_eq. }
  split.
  - intros fs4 Hloop Htmp. rewrite Hrun, Hloop. unfold unlink, isfile in *.
    by destruct (fs4 !! tmp) as [[c|]|].
  - intros pre m post e fs4 fs5 -> Hpre Hm. split.
    + by rewrite Hrun, (extract_members_failure _ _ _ _ _ _ _ _ _ Hpre Hm).
    + intros Hframe.
      pose proof (extract_members_keeps_file _ _ tmp _ _ _ _ Hframe Hpre Htmp3)
        as Htmp4.
      rewrite extract_member_strip in Hm.
      destruct (strip_components m) as [m'|]; [|done].
      by apply (Hframe _ _ _ _ Hm).
Qed.

Lemma installer_temporary_file_witness :
  install Sample.lib (Sample.serving "two-files" "") "/tmp/tmpq1w2e3"
    "https://example.org/sdk.tar.gz" "D" ∅
  = (Ok (), {[ "D" := Dir; "D/a" := Dir;
               "D/a/b.txt" := File "B"; "D/c.txt" := File "C" ]})
  ∧ install Sample.lib (Sample.serving "colliding" "") "/tmp/tmpq1w2e3"
      "https://example.org/sdk.tar.gz" "D" ∅
    = (Raise (IsADirectoryError "D/a"),
       {[ "/tmp/tmpq1w2e3" := File "colliding"; "D" := Dir; "D/a" := Dir;
          "D/a/b.txt" := File "B"; "D/c.txt" := File "C" ]})
  ∧ isfile {[ "/tmp/tmpq1w2e3" := File "colliding"; "D" := Dir; "D/a" := Dir;
              "D/a/b.txt" := File "B"; "D/c.txt" := File "C" ]}
      "/tmp/tmpq1w2e3" = true.
Proof.
  pose (tmp := "/tmp/tmpq1w2e3").
  pose (url := "https://example.org/sdk.tar.gz").
  pose (fs3 := ({[ tmp := File "two-files"; "D" := Dir ]} : FS)).
  pose (fs3' := ({[ tmp := File "colliding"; "D" := Dir ]} : FS)).
  pose (fs4 := ({[ tmp := File "two-files"; "D" := Dir; "D/a" := Dir;
                   "D/a/b.txt" := File "B"; "D/c.txt" := File "C" ]} : FS)).
  pose (fs5 := ({[ tmp := File "colliding"; "D" := Dir; "D/a" := Dir;
                   "D/a/b.txt" := File "B"; "D/c.txt" := File "C" ]} : FS)).
  assert (makedirs "D" (<[tmp := File "two-files"]> (<[tmp := File ""]> ∅))
          = (Ok (), fs3)) as Hdirs by (vm_compute; reflexivity).
  assert (makedirs "D" (<[tmp := File "colliding"]> (<[tmp := File ""]> ∅))
          = (Ok (), fs3')) as Hdirs' by (vm_compute; reflexivity).
  assert (extract_members Sample.lib "D" Sample.archive_two_files fs3
          = (Ok (), fs4)) as Hloop by (vm_compute; reflexivity).
  assert (isfile fs4 tmp = true) as Htmp4 by (vm_compute; reflexivity).
  assert (extract_members Sample.lib "D"
            [Sample.file "root/a/b.txt" "B"; Sample.file "root/c.txt" "C"] fs3'
          = (Ok (), fs5)) as Hpre by (vm_compute; reflexivity).
  assert (extract_member Sample.lib "D" (Sample.file "root/a" "A") fs5
          = (Raise (IsADirectoryError "D/a"), fs5)) as Hm
    by (vm_compute; reflexivity).
  destruct (installer_temporary_file Sample.lib
              (Sample.serving "two-files" "") tmp url "D" "two-files"
              Sample.archive_two_files ∅ fs3 eq_refl Hdirs eq_refl)
    as [Hdone _].
  destruct (installer_temporary_file Sample.lib
              (Sample.serving "colliding" "") tmp url "D" "colliding"
              Sample.archive_colliding ∅ fs3' eq_refl Hdirs' eq_refl)
    as [_ Hfail].
  destruct (Hfail [Sample.file "root/a/b.txt" "B"; Sample.file "root/c.txt" "C"]
              (Sample.file "root/a" "A") [Sample.file "root/d.txt" "D"]
              (IsADirectoryError "D/a") fs5 fs5 eq_refl Hpre Hm)
    as [Hraise Htmp].
  split; [|split].
  - refine (eq_trans (Hdone fs4 Hloop Htmp4) _). vm_compute; reflexivity.
  - exact Hraise.
  - apply Htmp. intros m fs r fs'. apply sample_extract_keeps_file.
Defined.

(** ** Startup *)

Lemma lower_ascii_letter (c l : ascii) :
  (l = "t" ∨ l = "r" ∨ l = "u" ∨ l = "e")%char →
  Str.lower_ascii c = l ↔ c = l ∨ c = ascii_of_nat (nat_of_ascii l - 32).
Proof.
  intros [-> | [-> | [-> | ->]]];
    destruct c as [[] [] [] [] [] [] [] []]; vm_compute;
    (split; [intros H; inversion H; auto
            | intros [H|H]; inversion H; reflexivity]).
Qed.

Lemma lower_spells_true (s : string) : Str.lower s = "true" ↔ spells_true s.
Proof.
  unfold spells_true. split.
  - destruct s as [|c1 [|c2 [|c3 [|c4 [|c5 s]]]]]; simpl; try done.
    intros [= H1 H2 H3 H4].
    apply lower_ascii_letter in H1, H2, H3, H4; [|auto..].
    exists c1, c2, c3, c4. by repeat split.
  - intros (c1 & c2 & c3 & c4 & -> & H1 & H2 & H3 & H4). simpl.
    repeat f_equal; apply lower_ascii_letter; auto.
Qed.

(** The version the [__main__] block binds is the raw input. *)
Lemma configure_version (environ : gmap string string) (args : Args) :
  version (configure environ args)
  = default (args_version args) (environ !! "INPUT_VERSION").
Proof.
  unfold configure, getenv. cbn [version].
  by destruct (environ !! "INPUT_VERSION").
Qed.

(** C9: [INPUT_VERSION] and [INPUT_INSTALL_DIR], when present, take the
    place of the flags [--version] and [--install-dir]; [INPUT_ADD_TO_PATH]
    switches the redirection on exactly when its value spells [true] in any
    case; with the redirection on, the output and environment files are the
    values of [GITHUB_PATH] and [GITHUB_ENV], or the flags when these are
    absent; with it off, they are the flags. *)
Theorem startup_configuration (environ : gmap string string) (args : Args) :
  version (configure environ args)
  = default (args_version args) (environ !! "INPUT_VERSION")
  ∧ install_dir (configure environ args)
    = default (args_install_dir args) (environ !! "INPUT_INSTALL_DIR")
  ∧ (add_to_path (configure environ args) = true
     ↔ ∃ s, environ !! "INPUT_ADD_TO_PATH" = Some s ∧ spells_true s)
  ∧ (add_to_path (configure environ args) = true →
     output_file (configure environ args)
     = match environ !! "GITHUB_PATH" with
       | Some p => Some p
       | None => args_output_file args
       end
     ∧ env_file (configure environ args)
       = match environ !! "GITHUB_ENV" with
         | Some p => Some p
         | None => args_env_file args
         end)
  ∧ (add_to_path (configure environ args) = false →
     output_file (configure environ args) = args_output_file args
     ∧ env_file (configure environ args) = args_env_file args).
Proof.
  split; [apply configure_version|].
  unfold configure, getenv. cbn [version install_dir add_to_path output_file
                                  env_file].
  split; [by destruct (environ !! "INPUT_INSTALL_DIR")|].
  split; [|split].
  - rewrite bool_decide_eq_true.
    destruct (environ !! "INPUT_ADD_TO_PATH") as [s|]; cbn [id].
    + rewrite lower_spells_true. split; [eauto|].
      by intros (s' & [= <-] & Hs).
    + split; [done|]. by intros (s' & [=] & _).
  - by intros ->.
  - by intros ->.
Qed.

Lemma startup_configuration_witness :
  output_file (configure {[ "INPUT_VERSION" := "25";
                            "INPUT_ADD_TO_PATH" := "True";
                            "GITHUB_PATH" := "/github/path" ]} default_args)
  = Some "/github/path"
  ∧ env_file (configure {[ "INPUT_VERSION" := "25";
                           "INPUT_ADD_TO_PATH" := "True";
                           "GITHUB_PATH" := "/github/path" ]} default_args)
    = None.
Proof.
  pose (env := ({[ "INPUT_VERSION" := "25"; "INPUT_ADD_TO_PATH" := "True";
                   "GITHUB_PATH" := "/github/path" ]} : gmap string string)).
  destruct (startup_configuration env default_args)
    as (_ & _ & Hon & Hredirect & _).
  apply Hredirect, Hon. exists "True". split; [reflexivity|].
  exists "T"%char, "r"%char, "u"%char, "e"%char. repeat split; auto.
Defined.

(** ** The global [version] *)

Lemma when_given_skipped (path : option string) (body : string → IO unit)
    (fs : FS) :
  (∀ q, given path q = false) → when_given path body fs = (Ok (), fs).
Proof.
  intros Hnone. destruct path as [q|]; [|done].
  specialize (Hnone q). unfold given in Hnone.
  rewrite bool_decide_eq_true_2 in Hnone by done.
  simpl in *. by rewrite Hnone.
Qed.

(** A block whose second line raises: the file gets the first line, and the
    exception leaves the block. *)
Lemma when_given_raises (path : option string) (e : exn) (line : string)
    (fs : FS) (p : string) :
  given path p = true → can_append fs p = true →
  when_given path (λ q, with_open_append q (Raise e, line)) fs
  = (Raise e, <[p := File (content fs p +:+ line)]> fs).
Proof.
  unfold given, can_append. intros [Hp Htruthy]%andb_true_iff Hopen.
  apply bool_decide_eq_true in Hp as ->. simpl. rewrite Htruthy.
  unfold with_open_append.
  destruct (open_append p fs) as [old|x] eqn:Hp; [|done].
  by apply open_append_content in Hp as ->.
Qed.

(** The writer with the global [version] unbound, once both assertions
    hold: each block stops at its second line. *)
Lemma write_variables_unbound_run (globals : gmap string string)
    (dir : string) (o e : option string) (fs : FS) :
  globals !! "version" = None →
  isfile fs (dir +:+ "/bin/clang") = true →
  isdir fs (dir +:+ "/share/wasi-sysroot") = true →
  write_variables globals dir o e fs
  = (when_given o (λ q, with_open_append q
                     (Raise (NameError "version"),
                      "wasi-sdk-path=" +:+ dir +:+ LF))
     ≫= λ _, when_given e (λ q, with_open_append q
                     (Raise (NameError "version"),
                      "WASI_SDK_PATH=" +:+ dir +:+ LF))) fs.
Proof.
  intros Hv Hclang Hsys. unfold write_variables.
  rewrite io_bind_run. unfold assert at 1. rewrite Hclang.
  cbn [mret IO_ret]. rewrite io_bind_run. unfold assert at 1. rewrite Hsys.
  cbn [mret IO_ret]. by rewrite !write_lines_block, Hv.
Qed.

(** With the global unbound the writer raises [NameError] in the block of
    the first file it was given, once that file is open. *)
Lemma write_variables_unbound (globals : gmap string string) (dir : string)
    (o e : option string) (fs : FS) (p : string) :
  globals !! "version" = None →
  isfile fs (dir +:+ "/bin/clang") = true →
  isdir fs (dir +:+ "/share/wasi-sysroot") = true →
  given o p = true ∨ (∀ q, given o q = false) ∧ given e p = true →
  can_append fs p = true →
  (write_variables globals dir o e fs).1 = Raise (NameError "version").
Proof.
  intros Hv Hclang Hsys Hgiven Hopen.
  rewrite (write_variables_unbound_run _ _ _ _ _ Hv Hclang Hsys).
  rewrite !io_bind_run.
  destruct Hgiven as [Ho|[Ho He]].
  - by rewrite (when_given_raises _ _ _ _ p Ho Hopen).
  - rewrite (when_given_skipped _ _ _ Ho).
    by rewrite (when_given_raises _ _ _ _ p He Hopen).
Qed.

(** What a successful run of the script leaves in a file it was given: the
    lines carry the raw version. *)
Lemma script_writes_raw_version (host : Host) (doctest_failures : nat)
    (args : Args) (fs fs' : FS) (p : string) :
  args_test_only args = false →
  script host doctest_failures args fs = (Ok (), fs') →
  given (output_file (configure (environ host) args)) p
  || given (env_file (configure (environ host) args)) p = true →
  ∃ old, fs' !! p
         = Some (File (old +:+ appended
                   (install_dir (configure (environ host) args))
                   (default (args_version args)
                      (environ host !! "INPUT_VERSION"))
                   (output_file (configure (environ host) args))
                   (env_file (configure (environ host) args)) p)).
Proof.
  intros Htest. unfold script. rewrite Htest. unfold main.
  rewrite io_bind_run. unfold lift at 1.
  destruct (calculate_version_and_tag _ _ _) as [[v t]|]; [|done].
  rewrite io_bind_run.
  destruct (install _ _ _ _ _ fs) as [[[]|] fs1]; [|done].
  intros Hwrite Hgiven.
  pose proof (write_variables_appended _ _ _ _ _ _ p Hwrite) as Hp.
  rewrite Hgiven in Hp. destruct Hp as (v' & Hv' & Hp).
  rewrite lookup_insert_ne, lookup_insert_eq in Hv' by done.
  injection Hv' as <-. rewrite <- configure_version. eauto.
Qed.

(** C10 (as amended): a run of the script leaves, in each file it was given,
    lines that carry the raw version (the value of [INPUT_VERSION], else of
    [--version]) and not the version the resolver returned; and the writer
    run with the global [version] unbound raises [NameError] when it comes
    to write a file: both expected paths are present and the first file
    argument that is given and not empty can be opened for appending. *)
Theorem writer_reads_global_version (host : Host) (doctest_failures : nat)
    (args : Args) (globals : gmap string string) (dir : string)
    (o e : option string) (fs fs' : FS) (p : string) :
  (args_test_only args = false →
   script host doctest_failures args fs = (Ok (), fs') →
   given (output_file (configure (environ host) args)) p
   || given (env_file (configure (environ host) args)) p = true →
   ∃ old, fs' !! p
          = Some (File (old +:+ appended
                    (install_dir (configure (environ host) args))
                    (default (args_version args)
                       (environ host !! "INPUT_VERSION"))
                    (output_file (configure (environ host) args))
                    (env_file (configure (environ host) args)) p)))
  ∧ (globals !! "version" = None →
     isfile fs (dir +:+ "/bin/clang") = true →
     isdir fs (dir +:+ "/share/wasi-sysroot") = true →
     given o p = true ∨ (∀ q, given o q = false) ∧ given e p = true →
     can_append fs p = true →
     (write_variables globals dir o e fs).1 = Raise (NameError "version")).
Proof.
  split.
  - apply script_writes_raw_version.
  - apply write_variables_unbound.
Qed.

Lemma writer_reads_global_version_witness :
  (∃ old, (script (Sample.host "sdk" ∅) 0 Sample.args25 ∅).2 !! "out"
          = Some (File (old +:+ output_text "sdk" "25")))
  ∧ calculate_version_and_tag (network (Sample.host "sdk" ∅)) ∅ "25"
    = Ok ("25.0", "wasi-sdk-25")
  ∧ (write_variables ∅ "sdk" (Some "out") None Sample.installed).1
    = Raise (NameError "version")
  ∧ (write_variables ∅ "sdk" (Some "") (Some "new-env")
       Sample.installed).1
    = Raise (NameError "version").
Proof.
  assert (script (Sample.host "sdk" ∅) 0 Sample.args25 ∅
          = (Ok (), (script (Sample.host "sdk" ∅) 0 Sample.args25 ∅).2))
    as Hrun by (vm_compute; reflexivity).
  destruct (writer_reads_global_version (Sample.host "sdk" ∅) 0 Sample.args25
              ∅ "sdk" (Some "out") None ∅
              (script (Sample.host "sdk" ∅) 0 Sample.args25 ∅).2 "out")
    as [Hraw _].
  destruct (writer_reads_global_version (Sample.host "sdk" ∅) 0 Sample.args25
              ∅ "sdk" (Some "out") None Sample.installed Sample.installed
              "out") as [_ Hfirst].
  destruct (writer_reads_global_version (Sample.host "sdk" ∅) 0 Sample.args25
              ∅ "sdk" (Some "") (Some "new-env") Sample.installed
              Sample.installed "new-env") as [_ Hsecond].
  split; [|split; [|split]].
  - exact (Hraw eq_refl Hrun eq_refl).
  - reflexivity.
  - exact (Hfirst eq_refl eq_refl eq_refl (or_introl eq_refl) eq_refl).
  - refine (Hsecond eq_refl eq_refl eq_refl (or_intror (conj _ eq_refl))
              eq_refl).
    intros q. unfold given. case_bool_decide as Hq; [|done].
    by injection Hq as <-.
Defined.

(** The writer with the global [version] unbound does not always raise
    [NameError]: with no file given it never reads the global and returns;
    with [bin/clang] missing it stops at the first assertion; with a
    directory as its output file it stops when it opens the file. *)
Lemma writer_without_files_returns :
  (∅ : gmap string string) !! "version" = None
  ∧ write_variables ∅ "sdk" None None Sample.installed
    = (Ok (), Sample.installed)
  ∧ write_variables ∅ "sdk" (Some "out") None {[ "out" := File "old" ]}
    = (Raise (AssertionError "clang not found at sdk/bin/clang"),
       {[ "out" := File "old" ]})
  ∧ write_variables ∅ "sdk" (Some "sdk/share/wasi-sysroot") None
      Sample.installed
    = (Raise (IsADirectoryError "sdk/share/wasi-sysroot"), Sample.installed).
Proof.
  split; [reflexivity|]. repeat split; vm_compute; reflexivity.
Qed.

(** * Further properties *)

(** ** Trailing characters *)

Lemma rstrip_all_in (chars t : string) :
  all_in chars t = true → Str.rstrip chars t = "".
Proof.
  induction t as [|c t IH]; [done|].
  simpl. intros [Hc Ht]%andb_true_iff. by rewrite IH, Hc.
Qed.

Lemma rstrip_append_all_in (chars s t : string) :
  all_in chars t = true → Str.rstrip chars (s +:+ t) = Str.rstrip chars s.
Proof.
  intros Ht. induction s as [|c s IH].
  - by rewrite append_nil_l, rstrip_all_in.
  - rewrite append_cons. simpl. by rewrite IH.
Qed.

Lemma rstrip_decompose (chars s : string) :
  ∃ t, s = Str.rstrip chars s +:+ t ∧ all_in chars t = true.
Proof.
  induction s as [|c s (t & Hs & Ht)]; [by exists ""|].
  simpl. destruct (Str.rstrip chars s) as [|a r] eqn:Hr.
  - rewrite append_nil_l in Hs. subst t.
    destruct (Str.mem c chars) eqn:Hc.
    + exists (String c s). split; [done|]. simpl. by rewrite Hc, Ht.
    + exists s. by split.
  - exists t. split; [|done]. by rewrite append_cons, <- Hs.
Qed.

Lemma rstrip_last_char (chars s : string) (c : ascii) :
  last_char (Str.rstrip chars s) = Some c → Str.mem c chars = false.
Proof.
  induction s as [|c0 s IH]; [done|].
  simpl. destruct (Str.rstrip chars s) as [|a r] eqn:Hr.
  - destruct (Str.mem c0 chars) eqn:Hc; simpl; [done|]. by intros [= <-].
  - apply IH.
Qed.

Lemma rstrip_fixed (chars s : string) :
  (∀ c, last_char s = Some c → Str.mem c chars = false) →
  Str.rstrip chars s = s.
Proof.
  induction s as [|c0 s IH]; [done|].
  intros Hlast. simpl. destruct s as [|a s].
  - simpl. by rewrite (Hlast c0).
  - rewrite IH; [done|]. intros c Hc. by apply Hlast.
Qed.

(** ** More on the Version Resolver *)

Lemma contains_dot_append (w : string) : Str.contains "." (w +:+ ".0") = true.
Proof.
  induction w as [|c w IH]; [done|].
  rewrite append_cons. simpl. rewrite IH. apply orb_true_r.
Qed.

Lemma contains_latest_dot (v : string) :
  Str.contains "." v = true → v ≠ "latest".
Proof. by intros Hv ->. Qed.

(** The resolver on an explicit version, in closed form. *)
Lemma resolver_explicit net env v :
  v ≠ "latest" →
  calculate_version_and_tag net env v
  = Ok (if Str.contains "." v then v else v +:+ ".0",
        "wasi-sdk-" +:+ Str.rstrip ".0" v).
Proof.
  intros Hv. unfold calculate_version_and_tag.
  rewrite decide_False by done. simpl. by destruct (Str.contains "." v).
Qed.

(** X1: for an explicit version the tag is ["wasi-sdk-"] followed by a stem
    such that the input is the stem followed only by ['.'] and ['0']
    characters, and the stem does not end in ['.'] or ['0']. *)
Theorem resolver_tag_stem net env v :
  v ≠ "latest" →
  ∃ v' stem rest,
    calculate_version_and_tag net env v = Ok (v', "wasi-sdk-" +:+ stem)
    ∧ v = stem +:+ rest
    ∧ all_in ".0" rest = true
    ∧ (∀ c, last_char stem = Some c → c ≠ "."%char ∧ c ≠ "0"%char).
Proof.
  intros Hv. destruct (rstrip_decompose ".0" v) as (rest & Hrest & Hall).
  eexists _, (Str.rstrip ".0" v), rest.
  split; [by apply resolver_explicit|]. split; [done|]. split; [done|].
  intros c Hc%rstrip_last_char. simpl in Hc.
  repeat case_decide; naive_solver.
Qed.

Lemma resolver_tag_stem_witness :
  ∃ v' stem rest,
    calculate_version_and_tag (Sample.serving "" "") ∅ "10.0.0"
    = Ok (v', "wasi-sdk-" +:+ stem)
    ∧ "10.0.0" = stem +:+ rest
    ∧ all_in ".0" rest = true
    ∧ (∀ c, last_char stem = Some c → c ≠ "."%char ∧ c ≠ "0"%char).
Proof.
  exact (resolver_tag_stem (Sample.serving "" "") ∅ "10.0.0" ltac:(done)).
Defined.

(** X2: where the suffix rule of the doctests holds.  When an explicit
    version [n] does not end in ['.'] or ['0'], the tag of [n] is
    ["wasi-sdk-" n] and the resolver maps [n.0] to the version [n.0] with
    the same tag. *)
Theorem resolver_suffix_rule net env n c :
  n ≠ "latest" →
  last_char n = Some c → c ≠ "."%char → c ≠ "0"%char →
  calculate_version_and_tag net env n
  = Ok (if Str.contains "." n then n else n +:+ ".0", "wasi-sdk-" +:+ n)
  ∧ calculate_version_and_tag net env (n +:+ ".0")
    = Ok (n +:+ ".0", "wasi-sdk-" +:+ n).
Proof.
  intros Hn Hlast Hdot Hzero.
  assert (Str.rstrip ".0" n = n) as Hfix.
  { apply rstrip_fixed. intros c' Hc'. rewrite Hlast in Hc'.
    injection Hc' as <-. simpl. by rewrite !decide_False. }
  split.
  - by rewrite resolver_explicit, Hfix.
  - rewrite resolver_explicit.
    + by rewrite contains_dot_append, rstrip_append_all_in, Hfix.
    + apply contains_latest_dot, contains_dot_append.
Qed.

Lemma resolver_suffix_rule_witness :
  calculate_version_and_tag (Sample.serving "" "") ∅ "25.1"
  = Ok ("25.1", "wasi-sdk-25.1")
  ∧ calculate_version_and_tag (Sample.serving "" "") ∅ "25.1.0"
    = Ok ("25.1.0", "wasi-sdk-25.1").
Proof.
  exact (resolver_suffix_rule (Sample.serving "" "") ∅ "25.1" "1"%char
           ltac:(done) eq_refl ltac:(done) ltac:(done)).
Defined.

(** X3: whatever the input, the network and the environment, a version
    the resolver returns contains a ['.']. *)
Theorem resolver_version_dotted net env v v' t :
  calculate_version_and_tag net env v = Ok (v', t) →
  Str.contains "." v' = true.
Proof. apply resolver_version_has_dot. Qed.

Lemma resolver_version_dotted_witness :
  Str.contains "." "25.0" = true.
Proof.
  exact (resolver_version_dotted (Sample.serving "" "wasi-sdk-25") ∅ "latest"
           "25.0" "wasi-sdk-25" eq_refl).
Defined.

(** X4: the resolver is idempotent on explicit versions: fed the version it
    returned, on any network and environment, it returns the same pair. *)
Theorem resolver_idempotent net env net' env' v v' t :
  v ≠ "latest" →
  calculate_version_and_tag net env v = Ok (v', t) →
  calculate_version_and_tag net' env' v' = Ok (v', t).
Proof.
  intros Hv. rewrite resolver_explicit by done. intros [= <- <-].
  destruct (Str.contains "." v) eqn:Hdot.
  - by rewrite resolver_explicit, Hdot.
  - rewrite resolver_explicit
      by apply contains_latest_dot, contains_dot_append.
    by rewrite contains_dot_append, rstrip_append_all_in.
Qed.

Lemma resolver_idempotent_witness :
  calculate_version_and_tag (Sample.serving "" "") ∅ "20.0"
  = Ok ("20.0", "wasi-sdk-2").
Proof.
  exact (resolver_idempotent (Sample.serving "" "x") ∅ (Sample.serving "" "") ∅
           "20" "20.0" "wasi-sdk-2" ltac:(done) eq_refl).
Defined.

Lemma replace_from_no_w (n : string) :
  Str.contains "w" n = false → Str.replace_from "wasi-sdk-" "" 0 n = n.
Proof.
  induction n as [|c n IH]; [done|].
  cbn [Str.contains Str.startswith Str.replace_from].
  destruct (decide ("w"%char = c)) as [<-|Hc]; [done|].
  simpl. intros Hn. by rewrite IH.
Qed.

Lemma replace_prefix (n : string) :
  Str.contains "w" n = false →
  Str.replace "wasi-sdk-" "" ("wasi-sdk-" +:+ n) = n.
Proof.
  intros Hn. unfold Str.replace.
  change ("wasi-sdk-" +:+ n)
    with (String "w" (String "a" (String "s" (String "i" (String "-"
           (String "s" (String "d" (String "k" (String "-" n))))))))).
  cbn [Str.replace_from Str.startswith String.length Nat.sub].
  rewrite !decide_True by done. rewrite append_nil_l.
  by apply replace_from_no_w.
Qed.

(** X5: when the API announces the tag ["wasi-sdk-" n] as the latest
    release, and [n] has no ['w'], the resolver returns the tag as announced
    (nothing is stripped from it) with the version [n], made dotted. *)
Theorem resolver_latest net env n :
  retrieve_latest_tag net env = Ok ("wasi-sdk-" +:+ n) →
  Str.contains "w" n = false →
  calculate_version_and_tag net env "latest"
  = Ok (if Str.contains "." n then n else n +:+ ".0", "wasi-sdk-" +:+ n).
Proof.
  intros Htag Hn. unfold calculate_version_and_tag.
  rewrite decide_True by done. rewrite Htag. cbn [mbind result_bind].
  rewrite replace_prefix by done. by destruct (Str.contains "." n).
Qed.

Lemma resolver_latest_witness :
  calculate_version_and_tag (Sample.serving "" "wasi-sdk-20") ∅ "latest"
  = Ok ("20.0", "wasi-sdk-20").
Proof.
  exact (resolver_latest (Sample.serving "" "wasi-sdk-20") ∅ "20"
           eq_refl eq_refl).
Defined.

(** X6: resolving ["latest"] fails with the exception of the request when
    the request fails, and with [KeyError('tag_name')] when the answer has
    no [tag_name]. *)
Theorem resolver_latest_failures net env :
  (∀ e, (∀ req, urlopen_json net req = Raise e) →
        calculate_version_and_tag net env "latest" = Raise e)
  ∧ (∀ data, (∀ req, urlopen_json net req = Ok data) →
             data !! "tag_name" = None →
             calculate_version_and_tag net env "latest"
             = Raise (KeyError "tag_name")).
Proof.
  unfold calculate_version_and_tag, retrieve_latest_tag.
  rewrite decide_True by done. split.
  - intros e Hnet. by rewrite Hnet.
  - intros data Hnet Hkey. rewrite Hnet. cbn [mbind result_bind].
    by rewrite Hkey.
Qed.

Lemma resolver_latest_failures_witness :
  calculate_version_and_tag
    {| urlopen_json _ := Ok ∅; urlretrieve _ := Ok "";
       received _ := None |} ∅ "latest"
  = Raise (KeyError "tag_name").
Proof.
  exact (proj2 (resolver_latest_failures
                  {| urlopen_json _ := Ok ∅; urlretrieve _ := Ok "";
       received _ := None |} ∅)
           ∅ (λ _, eq_refl) eq_refl).
Defined.

(** ** More on the URL Builder *)

Lemma lower_ascii_not_capital_D (c : ascii) : Str.lower_ascii c ≠ "D"%char.
Proof. by destruct c as [[] [] [] [] [] [] [] []]. Qed.

Lemma lower_not_Darwin (s : string) : Str.lower s ≠ "Darwin".
Proof.
  destruct s as [|c s]; [done|]. simpl. intros [= Hc _].
  by apply lower_ascii_not_capital_D in Hc.
Qed.

(** X8: apart from the exact spelling ["Darwin"], the URL does not depend
    on the case of the platform name: a name and its lowercase form give the
    same URL.  A lowercased name is never aliased to ["macos"]. *)
Theorem url_ignores_case (version tag arch os : string) :
  os ≠ "Darwin" →
  calculate_artifact_url version tag arch os
  = calculate_artifact_url version tag arch (Str.lower os).
Proof.
  intros Hos. unfold calculate_artifact_url.
  rewrite !decide_False by (done || apply lower_not_Darwin).
  by rewrite lower_idempotent.
Qed.

Lemma url_ignores_case_witness :
  calculate_artifact_url "25.0" "wasi-sdk-25" "arm64" "DARWIN"
  = calculate_artifact_url "25.0" "wasi-sdk-25" "arm64" "darwin".
Proof.
  exact (url_ignores_case "25.0" "wasi-sdk-25" "arm64" "DARWIN" ltac:(done)).
Defined.

(** ** More on the Fetcher/Extractor *)

Lemma install_raises_download (lib : Tarfile) (net : Network)
    (tmp url dir : string) (e : exn) (fs : FS) :
  urlretrieve net url = Raise e →
  install lib net tmp url dir fs
  = (Raise e, <[tmp := File (default "" (received net url))]> fs).
Proof.
  intros Hnet. unfold install.
  rewrite io_bind_run. unfold NamedTemporaryFile at 1.
  rewrite io_bind_run. unfold download at 1. rewrite Hnet.
  destruct (received net url) as [part|]; [|done].
  simpl. by rewrite insert_insert_eq.
Qed.

(** X9: when the download fails, the installer stops with the exception of
    the download: the temporary file stays behind, holding the part of the
    download that was written to it (nothing, when the request failed
    before a byte arrived), and nothing else changed (the install directory
    is not created). *)
Theorem install_download_failure (lib : Tarfile) (net : Network)
    (tmp url dir : string) (e : exn) (fs : FS) :
  urlretrieve net url = Raise e →
  install lib net tmp url dir fs
  = (Raise e, <[tmp := File (default "" (received net url))]> fs).
Proof. apply install_raises_download. Qed.

Lemma install_download_failure_witness :
  install Sample.lib
    {| urlopen_json _ := Ok ∅; urlretrieve u := Raise (URLError u);
       received _ := Some "PK" |}
    "/tmp/tmpq1w2e3" "https://example.org/sdk.tar.gz" "D" ∅
  = (Raise (URLError "https://example.org/sdk.tar.gz"),
     <["/tmp/tmpq1w2e3" := File "PK"]> ∅).
Proof.
  exact (install_download_failure Sample.lib
           {| urlopen_json _ := Ok ∅; urlretrieve u := Raise (URLError u);
              received _ := Some "PK" |}
           "/tmp/tmpq1w2e3" "https://example.org/sdk.tar.gz" "D" _ ∅ eq_refl).
Defined.

(** X10: when the downloaded bytes are not an archive the library can open,
    the installer stops with the exception of [tarfile.open]; the install
    directory was made and the temporary file stays behind with the
    downloaded bytes. *)
Theorem install_unreadable_archive (lib : Tarfile) (net : Network)
    (tmp url dir bytes : string) (e : exn) (fs fs3 : FS) :
  urlretrieve net url = Ok bytes →
  makedirs dir (<[tmp := File bytes]> (<[tmp := File ""]> fs)) = (Ok (), fs3) →
  getmembers lib bytes = Raise e →
  install lib net tmp url dir fs = (Raise e, fs3)
  ∧ fs3 !! tmp = Some (File bytes).
Proof.
  intros Hnet Hdirs Hopen.
  assert (fs3 !! tmp = Some (File bytes)) as Htmp
    by (apply (makedirs_lookup_file _ _ _ _ tmp bytes Hdirs),
          lookup_insert_eq).
  split; [|done]. unfold install.
  rewrite io_bind_run. unfold NamedTemporaryFile at 1.
  rewrite io_bind_run. unfold download at 1. rewrite Hnet.
  rewrite io_bind_run, Hdirs.
  rewrite io_bind_run. unfold read_file at 1. rewrite Htmp.
  rewrite io_bind_run. unfold lift at 1. by rewrite Hopen.
Qed.

Lemma install_unreadable_archive_witness :
  install Sample.lib (Sample.serving "<html>" "") "/tmp/tmpq1w2e3"
    "https://example.org/sdk.tar.gz" "D" ∅
  = (Raise ReadError, {[ "/tmp/tmpq1w2e3" := File "<html>"; "D" := Dir ]})
  ∧ ({[ "/tmp/tmpq1w2e3" := File "<html>"; "D" := Dir ]} : FS)
      !! "/tmp/tmpq1w2e3" = Some (File "<html>").
Proof.
  assert (makedirs "D" (<["/tmp/tmpq1w2e3" := File "<html>"]>
                          (<["/tmp/tmpq1w2e3" := File ""]> ∅))
          = (Ok (), {[ "/tmp/tmpq1w2e3" := File "<html>"; "D" := Dir ]}))
    as Hdirs by (vm_compute; reflexivity).
  exact (install_unreadable_archive Sample.lib (Sample.serving "<html>" "")
           "/tmp/tmpq1w2e3" "https://example.org/sdk.tar.gz" "D" "<html>"
           ReadError ∅ _ eq_refl Hdirs eq_refl).
Defined.

(** X11: whenever the installer returns, the temporary file is gone. *)
Theorem install_removes_temporary_file (lib : Tarfile) (net : Network)
    (tmp url dir : string) (fs fs' : FS) :
  install lib net tmp url dir fs = (Ok (), fs') → fs' !! tmp = None.
Proof.
  unfold install.
  rewrite io_bind_run. unfold NamedTemporaryFile at 1.
  rewrite io_bind_run. unfold download at 1.
  destruct (urlretrieve net url) as [bytes|];
    [|by destruct (received net url)].
  rewrite io_bind_run.
  destruct (makedirs dir _) as [[[]|] fs3]; [|done].
  rewrite io_bind_run. unfold read_file at 1.
  destruct (fs3 !! tmp) as [[c|]|]; [|done..].
  rewrite io_bind_run. unfold lift at 1.
  destruct (getmembers lib c) as [members|]; [|done].
  rewrite io_bind_run.
  destruct (extract_members lib dir members fs3) as [[[]|] fs4]; [|done].
  unfold unlink. destruct (fs4 !! tmp) as [[c'|]|]; [|done..].
  intros [= <-]. apply lookup_delete_eq.
Qed.

Lemma install_removes_temporary_file_witness :
  (install Sample.lib (Sample.serving "sdk" "") "/tmp/tmpq1w2e3"
     "https://example.org/sdk.tar.gz" "sdk" ∅).2 !! "/tmp/tmpq1w2e3" = None.
Proof.
  assert (install Sample.lib (Sample.serving "sdk" "") "/tmp/tmpq1w2e3"
            "https://example.org/sdk.tar.gz" "sdk" ∅
          = (Ok (), (install Sample.lib (Sample.serving "sdk" "")
                       "/tmp/tmpq1w2e3" "https://example.org/sdk.tar.gz"
                       "sdk" ∅).2)) as Hrun by (vm_compute; reflexivity).
  exact (install_removes_temporary_file _ _ _ _ _ _ _ Hrun).
Defined.

(** X12: the loop over two archives in a row is the loop over the first
    followed, when it returned, by the loop over the second. *)
Theorem extract_members_app (lib : Tarfile) (dir : string)
    (l1 l2 : list TarInfo) (fs : FS) :
  extract_members lib dir (l1 ++ l2)%list fs
  = match extract_members lib dir l1 fs with
    | (Ok _, fs1) => extract_members lib dir l2 fs1
    | (Raise e, fs1) => (Raise e, fs1)
    end.
Proof.
  revert fs. induction l1 as [|m l1 IH]; intros fs; [done|].
  simpl. rewrite !io_bind_run.
  destruct (extract_member lib dir m fs) as [[[]|e] fs']; [apply IH|done].
Qed.

(** ** More on the Output Writer *)

Lemma keeps_kinds_bind {A B : Type} (m : IO A) (k : A → IO B) :
  keeps_kinds m → (∀ a, keeps_kinds (k a)) → keeps_kinds (m ≫= k).
Proof.
  intros Hm Hk fs r fs' q. rewrite io_bind_run.
  destruct (m fs) as [[a|e] fs1] eqn:Hrun.
  - intros Hrest. destruct (Hm _ _ _ q Hrun), (Hk a _ _ _ q Hrest). auto.
  - intros [= <- <-]. apply (Hm _ _ _ q Hrun).
Qed.

Lemma keeps_kinds_assert (cond : FS → bool) (msg : string) :
  keeps_kinds (λ fs, assert (cond fs) msg fs).
Proof.
  intros fs r fs' q. unfold assert. by destruct (cond fs); intros [= _ <-].
Qed.

Lemma keeps_kinds_with_open_append (p : string) (body : result unit * string) :
  keeps_kinds (with_open_append p body).
Proof.
  intros fs r fs' q. unfold with_open_append.
  destruct (open_append p fs) as [old|x] eqn:Hopen; intros [= _ <-]; [|done].
  apply open_append_not_dir in Hopen. unfold isfile, isdir in *.
  destruct (decide (p = q)) as [<-|];
    [rewrite lookup_insert_eq|rewrite lookup_insert_ne by done]; [|done].
  by destruct (fs !! p) as [[c|]|].
Qed.

Lemma keeps_kinds_when_given (path : option string)
    (body : result unit * string) :
  keeps_kinds (when_given path (λ p, with_open_append p body)).
Proof.
  unfold when_given. destruct path as [p|].
  - destruct (Str.truthy p); [apply keeps_kinds_with_open_append|].
    by intros fs r fs' q [= _ <-].
  - by intros fs r fs' q [= _ <-].
Qed.

Lemma write_variables_keeps_kinds (globals : gmap string string)
    (dir : string) (o e : option string) :
  keeps_kinds (write_variables globals dir o e).
Proof.
  unfold write_variables.
  apply keeps_kinds_bind; [apply keeps_kinds_assert|intros _].
  apply keeps_kinds_bind; [apply keeps_kinds_assert|intros _].
  apply keeps_kinds_bind; [apply keeps_kinds_when_given|intros _].
  apply keeps_kinds_when_given.
Qed.

(** X13: the writer, whether it returns or raises, removes no path and
    changes the kind of none: regular files stay regular files and
    directories stay directories. *)
Theorem writer_keeps_kinds (globals : gmap string string) (dir : string)
    (o e : option string) (fs fs' : FS) (r : result unit) (q : string) :
  write_variables globals dir o e fs = (r, fs') →
  (isfile fs q = true → isfile fs' q = true)
  ∧ (isdir fs q = true → isdir fs' q = true).
Proof. apply write_variables_keeps_kinds. Qed.

Lemma writer_keeps_kinds_witness :
  isfile (write_variables Sample.globals25 "sdk" (Some "sdk/bin/clang") None
            Sample.installed).2 "sdk/bin/clang" = true.
Proof.
  exact (proj1 (writer_keeps_kinds Sample.globals25 "sdk"
                  (Some "sdk/bin/clang") None Sample.installed _ _
                  "sdk/bin/clang" (surjective_pairing _)) eq_refl).
Defined.

(** X14: the writer does not recognise its own lines: a second successful
    run on the result of a first puts the same lines once more at the end
    of every file it was given. *)
Theorem writer_twice (globals : gmap string string) (dir : string)
    (o e : option string) (fs fs1 fs2 : FS) (p : string) :
  write_variables globals dir o e fs = (Ok (), fs1) →
  write_variables globals dir o e fs1 = (Ok (), fs2) →
  given o p || given e p = true →
  ∃ v, globals !! "version" = Some v
       ∧ fs2 !! p = Some (File (content fs p +:+ appended dir v o e p
                                +:+ appended dir v o e p)).
Proof.
  intros H1 H2 Hp.
  apply (write_variables_appended _ _ _ _ _ _ p) in H1, H2.
  rewrite Hp in H1, H2.
  destruct H1 as (v & Hv & H1), H2 as (v' & Hv' & H2).
  exists v. split; [done|]. rewrite H2. unfold content at 1. rewrite H1.
  rewrite Hv in Hv'. injection Hv' as <-. by rewrite append_assoc.
Qed.

Lemma writer_twice_witness :
  ∃ v, Sample.globals25 !! "version" = Some v
       ∧ (write_variables Sample.globals25 "sdk" (Some "out") None
            (write_variables Sample.globals25 "sdk" (Some "out") None
               Sample.installed).2).2 !! "out"
         = Some (File ("old" +:+ output_text "sdk" v +:+ output_text "sdk" v)).
Proof.
  pose (fs1 := (write_variables Sample.globals25 "sdk" (Some "out") None
                  Sample.installed).2).
  assert (write_variables Sample.globals25 "sdk" (Some "out") None
            Sample.installed = (Ok (), fs1)) as H1
    by (vm_compute; reflexivity).
  assert (write_variables Sample.globals25 "sdk" (Some "out") None fs1
          = (Ok (), (write_variables Sample.globals25 "sdk" (Some "out") None
                       fs1).2)) as H2 by (vm_compute; reflexivity).
  destruct (writer_twice _ _ _ _ _ _ _ "out" H1 H2 eq_refl) as (v & Hv & Hp).
  exists v. split; [done|]. etrans; [exact Hp|].
  unfold appended. simpl. by rewrite !append_nil_r.
Defined.

Lemma when_given_runs (path : option string) (body : result unit * string)
    (fs : FS) (p : string) :
  given path p = true → can_append fs p = true →
  when_given path (λ q, with_open_append q body) fs
  = (body.1, <[p := File (content fs p +:+ body.2)]> fs).
Proof.
  unfold given, can_append. intros [Hp Htruthy]%andb_true_iff Hopen.
  apply bool_decide_eq_true in Hp as ->. simpl. rewrite Htruthy.
  unfold with_open_append.
  destruct (open_append p fs) as [old|x] eqn:Hp; [|done].
  by apply open_append_content in Hp as ->.
Qed.

Lemma when_given_directory (path : option string)
    (body : result unit * string) (fs : FS) (p : string) :
  given path p = true → isdir fs p = true →
  when_given path (λ q, with_open_append q body) fs
  = (Raise (IsADirectoryError p), fs).
Proof.
  unfold given. intros [Hp Htruthy]%andb_true_iff Hdir.
  apply bool_decide_eq_true in Hp as ->. simpl. rewrite Htruthy.
  unfold with_open_append, open_append, isdir in *.
  by destruct (fs !! p) as [[old|]|].
Qed.

(** The writer with the global [version] bound, once both assertions
    hold. *)
Lemma write_variables_bound_run (globals : gmap string string)
    (dir v : string) (o e : option string) (fs : FS) :
  globals !! "version" = Some v →
  isfile fs (dir +:+ "/bin/clang") = true →
  isdir fs (dir +:+ "/share/wasi-sysroot") = true →
  write_variables globals dir o e fs
  = (when_given o (λ q, with_open_append q (Ok (), output_text dir v))
     ≫= λ _, when_given e (λ q, with_open_append q (Ok (), env_text dir v)))
      fs.
Proof.
  intros Hv Hclang Hsys. unfold write_variables.
  rewrite io_bind_run. unfold assert at 1. rewrite Hclang.
  cbn [mret IO_ret]. rewrite io_bind_run. unfold assert at 1. rewrite Hsys.
  cbn [mret IO_ret]. rewrite !write_lines_block, Hv.
  unfold output_text, env_text. rewrite !append_assoc. reflexivity.
Qed.

(** X15: the two files are written one after the other, with nothing to
    undo the first: when the output file can be opened for appending and the
    environment file names a directory, the writer raises
    [IsADirectoryError] after the output file received its four lines; when
    the output file names a directory, it raises before anything is
    written. *)
Theorem writer_not_atomic (globals : gmap string string) (dir v : string)
    (o e : option string) (fs : FS) (p q : string) :
  globals !! "version" = Some v →
  isfile fs (dir +:+ "/bin/clang") = true →
  isdir fs (dir +:+ "/share/wasi-sysroot") = true →
  (given o p = true → can_append fs p = true →
   given e q = true → isdir fs q = true →
   write_variables globals dir o e fs
   = (Raise (IsADirectoryError q),
      <[p := File (content fs p +:+ output_text dir v)]> fs))
  ∧ (given o q = true → isdir fs q = true →
     write_variables globals dir o e fs = (Raise (IsADirectoryError q), fs)).
Proof.
  intros Hv Hclang Hsys.
  rewrite !(write_variables_bound_run _ _ _ _ _ _ Hv Hclang Hsys).
  rewrite !io_bind_run. split.
  - intros Ho Hp He Hq. rewrite (when_given_runs _ _ _ p Ho Hp). simpl.
    apply when_given_directory; [done|].
    unfold isdir in *. rewrite lookup_insert_ne; [done|].
    intros ->. unfold can_append in Hp.
    destruct (open_append q fs) as [old|x] eqn:Hopen; [|done].
    apply open_append_not_dir in Hopen. unfold isdir in Hopen.
    by rewrite Hq in Hopen.
  - intros Ho Hq. by rewrite (when_given_directory _ _ _ q Ho Hq).
Qed.

Lemma writer_not_atomic_witness :
  write_variables Sample.globals25 "sdk" (Some "out")
    (Some "sdk/share/wasi-sysroot") Sample.installed
  = (Raise (IsADirectoryError "sdk/share/wasi-sysroot"),
     <["out" := File ("old" +:+ output_text "sdk" "25")]> Sample.installed).
Proof.
  exact (proj1 (writer_not_atomic Sample.globals25 "sdk" "25" (Some "out")
                  (Some "sdk/share/wasi-sysroot") Sample.installed "out"
                  "sdk/share/wasi-sysroot" eq_refl eq_refl eq_refl)
           eq_refl eq_refl eq_refl eq_refl).
Defined.

(** ** More on startup and the pipeline *)

Lemma configure_add_to_path (environ : gmap string string) (args : Args)
    (s : string) :
  environ !! "INPUT_ADD_TO_PATH" = Some s → spells_true s →
  add_to_path (configure environ args) = true.
Proof.
  intros Hs Htrue%lower_spells_true. unfold configure, getenv.
  cbn [add_to_path]. rewrite Hs. cbn [id]. by apply bool_decide_eq_true.
Qed.

(** X16: with the redirection on and [GITHUB_ENV] set to the empty string,
    no environment file is written, and the file named by [--env-file] is
    not written either: the empty value takes the place of the flag and then
    counts as no file. *)
Theorem empty_github_env_drops_flag (environ globals : gmap string string)
    (args : Args) (s dir : string) (o : option string) (fs : FS) :
  environ !! "INPUT_ADD_TO_PATH" = Some s → spells_true s →
  environ !! "GITHUB_ENV" = Some "" →
  env_file (configure environ args) = Some ""
  ∧ write_variables globals dir o (env_file (configure environ args)) fs
    = write_variables globals dir o None fs.
Proof.
  intros Hs Htrue Henv.
  assert (env_file (configure environ args) = Some "") as ->; [|done].
  pose proof (configure_add_to_path _ args _ Hs Htrue) as Hon.
  unfold configure, getenv in *. cbn [add_to_path env_file] in *.
  by rewrite Hon, Henv.
Qed.

Lemma empty_github_env_drops_flag_witness :
  env_file (configure {[ "INPUT_ADD_TO_PATH" := "true"; "GITHUB_ENV" := "" ]}
              Sample.args25) = Some ""
  ∧ write_variables Sample.globals25 "sdk" None
      (env_file (configure {[ "INPUT_ADD_TO_PATH" := "true";
                              "GITHUB_ENV" := "" ]} Sample.args25))
      Sample.installed
    = write_variables Sample.globals25 "sdk" None None Sample.installed.
Proof.
  pose (env := ({[ "INPUT_ADD_TO_PATH" := "true"; "GITHUB_ENV" := "" ]}
                : gmap string string)).
  assert (env !! "INPUT_ADD_TO_PATH" = Some "true") as Hs by reflexivity.
  assert (env !! "GITHUB_ENV" = Some "") as Henv by reflexivity.
  assert (spells_true "true") as Htrue.
  { exists "t"%char, "r"%char, "u"%char, "e"%char. repeat split; auto. }
  exact (empty_github_env_drops_flag env Sample.globals25 Sample.args25
           "true" "sdk" None Sample.installed Hs Htrue Henv).
Defined.

(** X17: the pipeline stops at the first failing stage.  When ["latest"]
    cannot be resolved nothing is touched; when the download of an explicit
    version fails, the URL asked for is the one built from the dotted
    version, the tag with its trailing ['.'] and ['0'] dropped, and the
    host's machine and system, and only the temporary file is left, with
    the part of the download that was written to it. *)
Theorem main_stops_at_first_failure (host : Host)
    (globals : gmap string string) (v dir : string) (o e : option string)
    (err : exn) (fs : FS) :
  (retrieve_latest_tag (network host) (environ host) = Raise err →
   main host globals "latest" dir o e fs = (Raise err, fs))
  ∧ (v ≠ "latest" →
     urlretrieve (network host)
       (calculate_artifact_url (if Str.contains "." v then v else v +:+ ".0")
          ("wasi-sdk-" +:+ Str.rstrip ".0" v) (machine host) (system host))
     = Raise err →
     main host globals v dir o e fs
     = (Raise err,
        <[tmpname host
          := File (default ""
                     (received (network host)
                        (calculate_artifact_url
                           (if Str.contains "." v then v else v +:+ ".0")
                           ("wasi-sdk-" +:+ Str.rstrip ".0" v)
                           (machine host) (system host))))]> fs)).
Proof.
  unfold main. rewrite !io_bind_run. unfold lift. split.
  - intros Htag. unfold calculate_version_and_tag.
    rewrite decide_True by done. by rewrite Htag.
  - intros Hv Hnet. rewrite resolver_explicit by done.
    rewrite io_bind_run. by rewrite (install_raises_download _ _ _ _ _ _ _ Hnet).
Qed.

Lemma main_stops_at_first_failure_witness :
  main {| machine := "x86_64"; system := "Linux"; environ := ∅;
          network := {| urlopen_json _ := Ok ∅;
                        urlretrieve u := Raise (URLError u);
                        received _ := None |};
          tarfile := Sample.lib; tmpname := "/tmp/tmpq1w2e3" |}
    ∅ "25" "sdk" None None ∅
  = (Raise (URLError "https://github.com/WebAssembly/wasi-sdk/releases/download/wasi-sdk-25/wasi-sdk-25.0-x86_64-linux.tar.gz"),
     <["/tmp/tmpq1w2e3" := File ""]> ∅).
Proof.
  exact (proj2 (main_stops_at_first_failure
                  {| machine := "x86_64"; system := "Linux"; environ := ∅;
                     network := {| urlopen_json _ := Ok ∅;
                                   urlretrieve u := Raise (URLError u);
                                   received _ := None |};
                     tarfile := Sample.lib; tmpname := "/tmp/tmpq1w2e3" |}
                  ∅ "25" "sdk" None None _ ∅) ltac:(done) eq_refl).
Defined.

Lemma write_variables_ok_asserts (globals : gmap string string) (dir : string)
    (o e : option string) (fs fs' : FS) :
  write_variables globals dir o e fs = (Ok (), fs') →
  isfile fs (dir +:+ "/bin/clang") = true
  ∧ isdir fs (dir +:+ "/share/wasi-sysroot") = true.
Proof.
  destruct (write_variables_run globals dir o e) as [k Hk]. rewrite Hk.
  by destruct (isfile fs (dir +:+ "/bin/clang")),
       (isdir fs (dir +:+ "/share/wasi-sysroot")).
Qed.

(** X18: after a run of the pipeline that returned, the compiler and the
    sysroot are in place under the install directory: [bin/clang] is a
    regular file and [share/wasi-sysroot] a directory. *)
Theorem main_postcondition (host : Host) (globals : gmap string string)
    (v dir : string) (o e : option string) (fs fs' : FS) :
  main host globals v dir o e fs = (Ok (), fs') →
  isfile fs' (dir +:+ "/bin/clang") = true
  ∧ isdir fs' (dir +:+ "/share/wasi-sysroot") = true.
Proof.
  unfold main. rewrite io_bind_run. unfold lift at 1.
  destruct (calculate_version_and_tag _ _ _) as [[v' t]|]; [|done].
  rewrite io_bind_run.
  destruct (install _ _ _ _ _ fs) as [[[]|] fs1]; [|done].
  intros Hwrite.
  destruct (write_variables_ok_asserts _ _ _ _ _ _ Hwrite) as [Hclang Hsys].
  split.
  - by apply (write_variables_keeps_kinds _ _ _ _ _ _ _ _ Hwrite).
  - by apply (write_variables_keeps_kinds _ _ _ _ _ _ _ _ Hwrite).
Qed.

Lemma main_postcondition_witness :
  isfile (main (Sample.host "sdk" ∅) Sample.globals25 "25" "sdk" (Some "out")
            None ∅).2 "sdk/bin/clang" = true
  ∧ isdir (main (Sample.host "sdk" ∅) Sample.globals25 "25" "sdk" (Some "out")
             None ∅).2 "sdk/share/wasi-sysroot" = true.
Proof.
  assert (main (Sample.host "sdk" ∅) Sample.globals25 "25" "sdk" (Some "out")
            None ∅
          = (Ok (), (main (Sample.host "sdk" ∅) Sample.globals25 "25" "sdk"
                       (Some "out") None ∅).2)) as Hrun
    by (vm_compute; reflexivity).
  exact (main_postcondition _ _ _ _ _ _ _ _ Hrun).
Defined.

Lemma configure_with_version (environ : gmap string string) (args : Args)
    (v a b : string) :
  environ !! "INPUT_VERSION" = Some v →
  configure environ (with_version args a)
  = configure environ (with_version args b).
Proof. intros Hv. unfold configure, getenv. by rewrite Hv. Qed.

(** X19: when [INPUT_VERSION] is set, the flag [--version] has no effect on
    the run of the script. *)
Theorem input_version_shadows_flag (host : Host) (doctest_failures : nat)
    (args : Args) (v a b : string) (fs : FS) :
  environ host !! "INPUT_VERSION" = Some v →
  script host doctest_failures (with_version args a) fs
  = script host doctest_failures (with_version args b) fs.
Proof.
  intros Hv. unfold script.
  by rewrite (configure_with_version _ _ _ a b Hv).
Qed.

Lemma input_version_shadows_flag_witness :
  script (Sample.host "sdk" {[ "INPUT_VERSION" := "25" ]}) 0
    (with_version Sample.args25 "latest") ∅
  = script (Sample.host "sdk" {[ "INPUT_VERSION" := "25" ]}) 0
      (with_version Sample.args25 "24") ∅.
Proof.
  exact (input_version_shadows_flag
           (Sample.host "sdk" {[ "INPUT_VERSION" := "25" ]}) 0 Sample.args25
           "25" "latest" "24" ∅ eq_refl).
Defined.
